(** * no-array-fill-with-reference-type

    A shallow embedding of the rule [rules/no-array-fill-with-reference-type.js]
    of eslint-plugin-unicorn: the classifier [isReferenceType] with its helper
    [isIdentifierReferenceType], the label helpers [getType] and
    [getNewExpressionType], and the [CallExpression] listener of [create].

    JavaScript values are modelled as follows.
    - An ESTree node is a value of the tagged union [Node]; [node.type === 'X']
      is a match on the constructor [X].  A property that may be [undefined]
      is an [option].  Every node carries its [range] in the source text, which
      tells apart two nodes of the same shape, as object identity does in
      JavaScript.
    - The rule context is a record: [context.options] is a list of option
      objects, [context.sourceCode.getScope] and [context.sourceCode.getText]
      are functions supplied by ESLint.
    - The two mutually recursive classifiers have no bound on their recursion in
      the source.  They are defined by recursion on a call budget [fuel]; one
      unit is spent per call.  A result [OutOfFuel] for every budget is a run
      that never returns (in a JavaScript engine: a stack overflow).
    - A JavaScript exception is the result [Throw].
    - A JavaScript string is the sequence of the bytes of its UTF-8 encoding;
      where the rule counts or classifies characters, the bytes are read as
      the UTF-16 code units that JavaScript sees. *)

From Stdlib Require Import String Ascii List Bool Arith Lia.
Import ListNotations.
Local Open Scope string_scope.
Set Warnings "-register-all".

(** ** Results of possibly failing, possibly diverging computations *)

Inductive Error : Type :=
| TypeError (message : string).

Inductive Result (A : Type) : Type :=
| Return (a : A)
| Throw (e : Error)
| OutOfFuel.

Arguments Return {A} a.
Arguments Throw {A} e.
Arguments OutOfFuel {A}.

Definition bind {A B : Type} (c : Result A) (k : A -> Result B) : Result B :=
  match c with
  | Return a => k a
  | Throw e => Throw e
  | OutOfFuel => OutOfFuel
  end.

Notation "x <- c ;; k" := (bind c (fun x => k))
  (at level 61, c at next level, right associativity).

(** ** Syntax tree *)

(** The [regex] property of a regular expression literal. *)
Record RegexInfo : Type := { pattern : string; flags : string }.

(** [node.range]: the offsets of the first character of the node and of the
    character after its last. *)
Definition Range : Type := (nat * nat)%type.

(** ESTree nodes.  Besides [range], only the properties read by the rule are
    kept, together with the children needed to write programs down.
    [VariableDeclarator] carries [parent.kind], the kind of the enclosing
    [VariableDeclaration] (the tree is otherwise free of parent links).
    [OtherNode] stands for every node kind not listed, with its [type]. *)
Inductive Node : Type :=
| Literal (range : Range) (raw : string) (regex : option RegexInfo)
| TemplateLiteral (range : Range) (expressions : list Node)
| Identifier (range : Range) (name : string)
| PrivateIdentifier (range : Range) (name : string)
| CallExpression (range : Range) (callee : Node) (arguments : list Node)
| NewExpression (range : Range) (callee : Node) (arguments : list Node)
| MemberExpression (range : Range) (object : Node) (property : Node)
| ObjectExpression (range : Range)
| ArrayExpression (range : Range)
| FunctionExpression (range : Range)
| ArrowFunctionExpression (range : Range)
| FunctionDeclaration (range : Range)
| ClassExpression (range : Range)
| ClassDeclaration (range : Range)
| VariableDeclarator (range : Range) (id : Node) (init : option Node)
    (parent_kind : string)
| OtherNode (range : Range) (type : string).

(** [node.range] *)
Definition node_range (node : Node) : Range :=
  match node with
  | Literal range _ _ | TemplateLiteral range _ | Identifier range _
  | PrivateIdentifier range _ | CallExpression range _ _
  | NewExpression range _ _ | MemberExpression range _ _
  | ObjectExpression range | ArrayExpression range | FunctionExpression range
  | ArrowFunctionExpression range | FunctionDeclaration range
  | ClassExpression range | ClassDeclaration range
  | VariableDeclarator range _ _ _ | OtherNode range _ => range
  end.

(** [node.type] *)
Definition node_type (node : Node) : string :=
  match node with
  | Literal _ _ _ => "Literal"
  | TemplateLiteral _ _ => "TemplateLiteral"
  | Identifier _ _ => "Identifier"
  | PrivateIdentifier _ _ => "PrivateIdentifier"
  | CallExpression _ _ _ => "CallExpression"
  | NewExpression _ _ _ => "NewExpression"
  | MemberExpression _ _ _ => "MemberExpression"
  | ObjectExpression _ => "ObjectExpression"
  | ArrayExpression _ => "ArrayExpression"
  | FunctionExpression _ => "FunctionExpression"
  | ArrowFunctionExpression _ => "ArrowFunctionExpression"
  | FunctionDeclaration _ => "FunctionDeclaration"
  | ClassExpression _ => "ClassExpression"
  | ClassDeclaration _ => "ClassDeclaration"
  | VariableDeclarator _ _ _ _ => "VariableDeclarator"
  | OtherNode _ type => type
  end.

(** [node.name], [undefined] on nodes without a name. *)
Definition node_name (node : Node) : option string :=
  match node with
  | Identifier _ name | PrivateIdentifier _ name => Some name
  | _ => None
  end.

(** [node.callee], [undefined] on nodes without a callee. *)
Definition node_callee (node : Node) : option Node :=
  match node with
  | CallExpression _ callee _ | NewExpression _ callee _ => Some callee
  | _ => None
  end.

(** [a === b] on values that are a string or [undefined]. *)
Definition strict_eq (a b : option string) : bool :=
  match a, b with
  | Some x, Some y => String.eqb x y
  | None, None => true
  | _, _ => false
  end.

(** ** Scopes, as eslint-scope hands them to the rule *)

Module Def.
(** One entry of [variable.defs]; [node] is the defining node. *)
Record t : Type := mk { node : option Node }.
End Def.

Module Var.
Record t : Type := mk { name : string; defs : list Def.t }.
End Var.

Module Scope.
(** [upper] is the enclosing scope; the rule never follows it. *)
Inductive t : Type := mk { variables : list Var.t; upper : option t }.
End Scope.

(** ** Rule context *)

(** The resolved options of the rule. *)
Record Options : Type :=
  { canFillWithFunction : bool; canFillWithRegexp : bool }.

(** An options object as the user wrote it: each key may be missing. *)
Module UserOptions.
Record t : Type :=
  mk { canFillWithFunction : option bool; canFillWithRegexp : option bool }.
End UserOptions.

Module SourceCode.
(** [getText] takes the node or [undefined]. *)
Record t : Type :=
  mk { getScope : Node -> Scope.t; getText : option Node -> string }.
End SourceCode.

Module RuleContext.
Record t : Type :=
  mk { options : list UserOptions.t; sourceCode : SourceCode.t }.
End RuleContext.

Definition MESSAGE_ID_ERROR : string :=
  "no-array-fill-with-reference-type/error".

Definition DEFAULTS : Options :=
  {| canFillWithFunction := true; canFillWithRegexp := true |}.

(** [{...base, ...over}]: a key present in [over] wins; spreading [undefined]
    adds nothing. *)
Definition spread (base : Options) (over : option UserOptions.t) : Options :=
  match over with
  | None => base
  | Some o =>
      {| canFillWithFunction :=
           match UserOptions.canFillWithFunction o with
           | Some b => b
           | None => canFillWithFunction base
           end;
         canFillWithRegexp :=
           match UserOptions.canFillWithRegexp o with
           | Some b => b
           | None => canFillWithRegexp base
           end |}
  end.

(** ** Helpers imported from [./ast/index.js] *)

(** Modelled from the spec: [isFunction], imported from [./ast/index.js], a
    module that is not embedded here.  The spec names function literals and
    arrow function literals; the valid test case
    [function foo() {}; new Array(7).fill(foo);] shows that a function
    declaration counts as well. *)
Definition isFunction (node : Node) : bool :=
  match node with
  | FunctionDeclaration _ | FunctionExpression _
  | ArrowFunctionExpression _ => true
  | _ => false
  end.

(** Modelled from the spec: [isRegexLiteral], imported from [./ast/index.js],
    a module that is not embedded here: a [Literal] that carries the regex
    flag. *)
Definition isRegexLiteral (node : Node) : bool :=
  match node with
  | Literal _ _ (Some _) => true
  | _ => false
  end.

(** ** String operations used for labels

    A string is the sequence of the bytes of its UTF-8 encoding, as a string
    literal of this file is.  JavaScript counts the length of a string in
    UTF-16 code units: one for a character encoded in one to three bytes, two
    for a character encoded in four. *)

(** The characters matched by [\s] that are encoded in one byte: tab, line
    feed, vertical tab, form feed, carriage return and space. *)
Definition isWhiteSpace (c : ascii) : bool :=
  match nat_of_ascii c with
  | 9 | 10 | 11 | 12 | 13 | 32 => true
  | _ => false
  end.

(** The one matched by [\s] that is encoded in two bytes: U+00A0 (C2 A0). *)
Definition isWhiteSpace2 (a b : ascii) : bool :=
  Ascii.eqb a "194" && Ascii.eqb b "160".

(** Those encoded in three bytes: U+1680 (E1 9A 80); U+2000 to U+200A,
    U+2028, U+2029 and U+202F (E2 80 80 to 8A, A8, A9, AF); U+205F
    (E2 81 9F); U+3000 (E3 80 80); U+FEFF (EF BB BF). *)
Definition isWhiteSpace3 (a b c : ascii) : bool :=
  Ascii.eqb a "225" && (Ascii.eqb b "154" && Ascii.eqb c "128")
  || Ascii.eqb a "226"
     && (Ascii.eqb b "128"
         && (Nat.leb 128 (nat_of_ascii c) && Nat.leb (nat_of_ascii c) 138
             || Ascii.eqb c "168" || Ascii.eqb c "169" || Ascii.eqb c "175"))
  || Ascii.eqb a "226" && (Ascii.eqb b "129" && Ascii.eqb c "159")
  || Ascii.eqb a "227" && (Ascii.eqb b "128" && Ascii.eqb c "128")
  || Ascii.eqb a "239" && (Ascii.eqb b "187" && Ascii.eqb c "191").

(** The number of bytes of the character matched by [\s] that [s] starts
    with; 0 when [s] starts with none. *)
Definition whiteSpaceWidth (s : string) : nat :=
  match s with
  | EmptyString => 0
  | String a rest =>
      if isWhiteSpace a then 1
      else
        match rest with
        | EmptyString => 0
        | String b rest' =>
            if isWhiteSpace2 a b then 2
            else
              match rest' with
              | EmptyString => 0
              | String c _ => if isWhiteSpace3 a b c then 3 else 0
              end
        end
  end.

(** [s.split('\n')[0]] *)
Fixpoint firstLine (s : string) : string :=
  match s with
  | EmptyString => EmptyString
  | String c rest =>
      if Ascii.eqb c "010"%char then EmptyString else String c (firstLine rest)
  end.

(** Drops the characters matched by [\s] at the start of [s], after the
    [skip] bytes left of the character being dropped. *)
Fixpoint dropWhiteSpaceAfter (skip : nat) (s : string) : string :=
  match s with
  | EmptyString => EmptyString
  | String _ rest =>
      match skip with
      | S skip' => dropWhiteSpaceAfter skip' rest
      | O =>
          match whiteSpaceWidth s with
          | O => s
          | S skip' => dropWhiteSpaceAfter skip' rest
          end
      end
  end.

Definition dropWhiteSpace (s : string) : string := dropWhiteSpaceAfter 0 s.

(** The bytes of [s] up to the first character matched by [\s]. *)
Fixpoint takeNonWhiteSpace (s : string) : string :=
  match s with
  | EmptyString => EmptyString
  | String c rest =>
      match whiteSpaceWidth s with
      | O => String c (takeNonWhiteSpace rest)
      | S _ => EmptyString
      end
  end.

(** [s.match(/\S+/)]: the first run of characters not matched by [\s],
    [null] when there is none. *)
Definition matchNonWhiteSpace (s : string) : option string :=
  match takeNonWhiteSpace (dropWhiteSpace s) with
  | EmptyString => None
  | m => Some m
  end.

(** A byte inside the encoding of a character (10xxxxxx). *)
Definition isContinuation (c : ascii) : bool :=
  Nat.leb 128 (nat_of_ascii c) && Nat.ltb (nat_of_ascii c) 192.

(** The UTF-16 code units of the character whose encoding starts with the
    byte [c]: two when the encoding has four bytes (11110xxx); none for a
    byte inside an encoding. *)
Definition unitsAt (c : ascii) : nat :=
  if isContinuation c then 0
  else if Nat.leb 240 (nat_of_ascii c) then 2
  else 1.

(** [s.length] *)
Fixpoint codeUnits (s : string) : nat :=
  match s with
  | EmptyString => 0
  | String c rest => unitsAt c + codeUnits rest
  end.

(** The first of the two code units (the high surrogate) of the character
    encoded by the four bytes 11110uuu 10uuzzzz 10yyyyyy 10xxxxxx, that is
    110110wwwwzzzzyy with wwww = uuuuu - 1, written in three bytes like any
    other code unit: ED, 101wwww, 10zzzzyy. *)
Definition highSurrogate (b0 b1 b2 : ascii) : string :=
  let u := (nat_of_ascii b0 mod 8) * 4 + (nat_of_ascii b1 / 16) mod 4 in
  let z := nat_of_ascii b1 mod 16 in
  let y := (nat_of_ascii b2 / 16) mod 4 in
  String "237"
    (String (ascii_of_nat (160 + (u - 1) mod 16))
       (String (ascii_of_nat (128 + (z * 4 + y))) EmptyString)).

(** [s.slice(0, n)]: the first [n] code units of [s].  A cut between the two
    code units of a character leaves its high surrogate. *)
Fixpoint takeCodeUnits (n : nat) (s : string) : string :=
  match s with
  | EmptyString => EmptyString
  | String c rest =>
      match unitsAt c with
      | 0 => String c (takeCodeUnits n rest)
      | 1 =>
          match n with
          | 0 => EmptyString
          | S n' => String c (takeCodeUnits n' rest)
          end
      | _ =>
          match n with
          | 0 => EmptyString
          | 1 =>
              match rest with
              | String b1 (String b2 (String b3 _)) => highSurrogate c b1 b2
              | _ => EmptyString
              end
          | S (S n') => String c (takeCodeUnits n' rest)
          end
      end
  end.

(** Some character of [s] is matched by [\s]. *)
Fixpoint containsWhiteSpace (s : string) : bool :=
  match s with
  | EmptyString => false
  | String _ rest =>
      negb (Nat.eqb (whiteSpaceWidth s) 0) || containsWhiteSpace rest
  end.

(** ** Label derivation *)

(** Only called on a [NewExpression]; a node without [callee] cannot reach it
    and is given the last label. *)
Definition getNewExpressionType (fillArgument : Node) (context : RuleContext.t)
  : string :=
  match node_callee fillArgument with
  | None => "new ()"
  | Some callee =>
      match node_name callee with
      | Some (String c rest) => "new " ++ String c rest ++ "()"
      | _ =>
          let text :=
            SourceCode.getText (RuleContext.sourceCode context) (Some callee) in
          match matchNonWhiteSpace (firstLine text) with
          | Some m => "new " ++ takeCodeUnits 32 m
          | None => "new ()"
          end
      end
  end.

Definition getType (fillArgument : Node) (context : RuleContext.t) : string :=
  match fillArgument with
  | ObjectExpression _ => "Object"
  | ArrayExpression _ => "Array"
  | NewExpression _ _ _ => getNewExpressionType fillArgument context
  | FunctionExpression _ | ArrowFunctionExpression _ => "Function"
  | Literal _ _ (Some _) => "RegExp"
  | Identifier _ name => "variable (" ++ name ++ ")"
  | _ => ""
  end.

(** ** The classifier *)

(** [node.type === 'CallExpression' && node.callee.name === 'Symbol'] *)
Definition isSymbolCall (node : Node) : bool :=
  match node with
  | CallExpression _ callee _ => strict_eq (node_name callee) (Some "Symbol")
  | _ => false
  end.

(** [node.type === 'NewExpression' && node.callee.name === 'RegExp'] *)
Definition isNewRegexp (node : Node) : bool :=
  match node with
  | NewExpression _ callee _ => strict_eq (node_name callee) (Some "RegExp")
  | _ => false
  end.

(** [!variables || variables.length === 0] *)
Definition noVariables (variables : list Var.t) : bool :=
  match variables with
  | [] => true
  | _ :: _ => false
  end.

Definition getOptions (context : RuleContext.t) : Options :=
  spread DEFAULTS (nth_error (RuleContext.options context) 0).

(** The error of reading [.node] of [defs[0]] when [defs] is empty. *)
Definition readNodeOfUndefined : Error :=
  TypeError "Cannot read properties of undefined (reading 'node')".

Fixpoint isReferenceType (fuel : nat) (node : option Node)
    (context : RuleContext.t) {struct fuel} : Result bool :=
  match fuel with
  | O => OutOfFuel
  | S fuel =>
      match node with
      | None => Return false
      | Some node =>
          let options := getOptions context in
          match node with
          | Literal _ _ _ =>
              if negb (canFillWithRegexp options) && isRegexLiteral node
              then Return true
              else Return false
          | TemplateLiteral _ _ => Return false
          | Identifier _ _ => isIdentifierReferenceType fuel node context
          | _ =>
              if isSymbolCall node
                 && noVariables
                      (Scope.variables
                         (SourceCode.getScope
                            (RuleContext.sourceCode context) node))
              then Return false
              else if canFillWithFunction options && isFunction node
              then Return false
              else if canFillWithRegexp options && isNewRegexp node
              then Return false
              else Return true
          end
      end
  end

with isIdentifierReferenceType (fuel : nat) (node : Node)
    (context : RuleContext.t) {struct fuel} : Result bool :=
  match fuel with
  | O => OutOfFuel
  | S fuel =>
      let variables :=
        Scope.variables
          (SourceCode.getScope (RuleContext.sourceCode context) node) in
      let variable :=
        find (fun v => strict_eq (Some (Var.name v)) (node_name node))
          variables in
      (* variable?.defs[0].node *)
      definitionNode <-
        match variable with
        | None => Return None
        | Some v =>
            match nth_error (Var.defs v) 0 with
            | None => Throw readNodeOfUndefined
            | Some d => Return (Def.node d)
            end
        end ;;
      match variable, definitionNode with
      | None, _ | _, None => Return false
      | Some _, Some definitionNode =>
          match definitionNode with
          | VariableDeclarator _ _ init parent_kind =>
              if String.eqb parent_kind "let"
              then Return false
              else isReferenceType fuel init context
          | _ => isReferenceType fuel (Some definitionNode) context
          end
      end
  end.

(** ** The verdict handed to the listener

    The spec's [classify] is the pair computed by the listener of [create]:
    the boolean of [isReferenceType] and, when it is [true], the label
    of [getType] on the same node.  A node that is not flagged gets no label. *)

Record Verdict : Type := { isReference : bool; typeLabel : string }.

Definition classify (fuel : nat) (node : option Node)
    (context : RuleContext.t) : Result Verdict :=
  r <- isReferenceType fuel node context ;;
  match r, node with
  | true, Some fillArgument =>
      Return {| isReference := true;
                typeLabel := getType fillArgument context |}
  | _, _ => Return {| isReference := false; typeLabel := "" |}
  end.

(** The problem reported by the listener. *)
Record Problem : Type :=
  { problem_node : Node;
    messageId : string;
    data_actual : string;
    data_type : string }.

(** [create(context).CallExpression(node)]; [None] is [undefined], no report. *)
Definition CallExpression_listener (fuel : nat) (node : Node)
    (context : RuleContext.t) : Result (option Problem) :=
  match node with
  | CallExpression _ (MemberExpression _ object property) arguments =>
      let getText := SourceCode.getText (RuleContext.sourceCode context) in
      let objectCallee := node_callee object in
      let isArrayFill :=
        (strict_eq
           (match objectCallee with Some c => node_name c | None => None end)
           (Some "Array")
         || String.eqb (getText objectCallee) "Array.from")
        && strict_eq (node_name property) (Some "fill")
        && Nat.ltb 0 (length arguments) in
      if negb isArrayFill then Return None
      else
        let fillArgument := nth_error arguments 0 in
        verdict <- classify fuel fillArgument context ;;
        match isReference verdict, fillArgument with
        | true, Some fillArgument =>
            let actual :=
              if String.eqb (getText objectCallee) "Array.from"
              then "Array.from().fill()"
              else "Array.fill()" in
            let type := typeLabel verdict in
            Return (Some
              {| problem_node := fillArgument;
                 messageId := MESSAGE_ID_ERROR;
                 data_actual := actual;
                 data_type :=
                   match type with
                   | EmptyString => ""
                   | _ => " (" ++ type ++ ")"
                   end |})
        | _, _ => Return None
        end
  | _ => Return None
  end.

(** ** Outcomes of a classification, independent of the budget *)

(** The call returns [b]. *)
Definition returns (node : option Node) (context : RuleContext.t) (b : bool)
  : Prop :=
  exists fuel, isReferenceType fuel node context = Return b.

(** The call raises [e]. *)
Definition throws (node : option Node) (context : RuleContext.t) (e : Error)
  : Prop :=
  exists fuel, isReferenceType fuel node context = Throw e.

(** The call comes to an end: it returns or throws. *)
Definition terminates (node : option Node) (context : RuleContext.t) : Prop :=
  exists fuel, isReferenceType fuel node context <> OutOfFuel.

(** The call never comes to an end. *)
Definition diverges (node : option Node) (context : RuleContext.t) : Prop :=
  forall fuel, isReferenceType fuel node context = OutOfFuel.

(** ** Identifier resolution, read off [isIdentifierReferenceType]

    [findVariable] is the variable found by
    [variables.find(v => v.name === node.name)]; [resolve] names the four ways
    in which [isIdentifierReferenceType] goes on from there.  Lemma
    [isIdentifierReferenceType_resolve] ties them to the function. *)

Definition findVariable (node : Node) (context : RuleContext.t)
  : option Var.t :=
  find (fun v => strict_eq (Some (Var.name v)) (node_name node))
    (Scope.variables
       (SourceCode.getScope (RuleContext.sourceCode context) node)).

Inductive Resolution : Type :=
| Unresolved                      (* no variable, or no defining node *)
| NoDefinition                    (* a variable with an empty [defs] *)
| NotChecked                      (* declared with [let] *)
| Reclassify (target : option Node).  (* the node classified in its place *)

Definition resolve (node : Node) (context : RuleContext.t) : Resolution :=
  match findVariable node context with
  | None => Unresolved
  | Some v =>
      match Var.defs v with
      | [] => NoDefinition
      | d :: _ =>
          match Def.node d with
          | None => Unresolved
          | Some (VariableDeclarator _ _ init parent_kind) =>
              if String.eqb parent_kind "let" then NotChecked
              else Reclassify init
          | Some definitionNode => Reclassify (Some definitionNode)
          end
      end
  end.

(** The nodes classified on the way when [node] is classified: [node] itself
    and, from an identifier, the nodes reached through [resolve]. *)
Inductive reaches (context : RuleContext.t) : Node -> Node -> Prop :=
| reaches_here : forall node, reaches context node node
| reaches_step : forall range name target node,
    resolve (Identifier range name) context = Reclassify (Some target) ->
    reaches context target node ->
    reaches context (Identifier range name) node.

(** The shapes governed by an option. *)
Definition governed (node : Node) : bool :=
  isRegexLiteral node || isNewRegexp node || isFunction node.

(** A declaration kind whose binding may be assigned again after its
    initialization: [var] and [let], as opposed to [const] (and [using]). *)
Definition reassignableKind (kind : string) : bool :=
  String.eqb kind "var" || String.eqb kind "let".

(** ** Programs of the test suite and of the counterexamples *)

(** [text.slice(start, end)] *)
Definition slice (text : string) (range : Range) : string :=
  substring (fst range) (snd range - fst range) text.

(** The source code object of the program [text], written in ASCII, so that
    offsets in bytes and in code units agree: [getText] slices the text at the
    range of the node and gives the whole text without a node. *)
Definition sourceCodeOf (text : string) (getScope : Node -> Scope.t)
  : SourceCode.t :=
  SourceCode.mk getScope
    (fun node =>
       match node with
       | Some n => slice text (node_range n)
       | None => text
       end).

(** A program all of whose nodes lie in the one scope [scope]. *)
Definition contextOf (options : list UserOptions.t) (text : string)
    (scope : Scope.t) : RuleContext.t :=
  RuleContext.mk options (sourceCodeOf text (fun _ => scope)).

(** The scope of the top level of a program. *)
Definition topLevel (variables : list Var.t) : Scope.t :=
  Scope.mk variables None.

(** A variable with one definition. *)
Definition definedBy (name : string) (definitionNode : Node) : Var.t :=
  Var.mk name [Def.mk (Some definitionNode)].

(** The scope of the body of a function that is not an arrow and declares
    nothing: eslint-scope gives it the variable [arguments], which has no
    definition. *)
Definition functionScope (upper : Scope.t) : Scope.t :=
  Scope.mk [Var.mk "arguments" []] (Some upper).

(** [inner] lies within [outer]. *)
Definition within (inner outer : Range) : bool :=
  Nat.leb (fst outer) (fst inner) && Nat.leb (snd inner) (snd outer).

Definition defaultOptions : list UserOptions.t :=
  [UserOptions.mk None None].

Definition regexpOff : list UserOptions.t :=
  [UserOptions.mk None (Some false)].

Definition functionOff : list UserOptions.t :=
  [UserOptions.mk (Some false) None].

Definition allOff : list UserOptions.t :=
  [UserOptions.mk (Some false) (Some false)].

(** *** [const x = 1; new Array(3).fill(Symbol('foo'));] *)

Definition symbolCall_text : string :=
  "const x = 1; new Array(3).fill(Symbol('foo'));".

Definition symbolCall_declarator : Node :=
  VariableDeclarator (6, 11) (Identifier (6, 7) "x")
    (Some (Literal (10, 11) "1" None)) "const".

Definition symbolCall_fillArgument : Node :=
  CallExpression (31, 44) (Identifier (31, 37) "Symbol")
    [Literal (38, 43) "'foo'" None].

Definition symbolCall : RuleContext.t :=
  contextOf defaultOptions symbolCall_text
    (topLevel [definedBy "x" symbolCall_declarator]).

(** *** [var p = {}; new Array(3).fill(p);] *)

Definition varObject_text : string := "var p = {}; new Array(3).fill(p);".

Definition varObject_declarator : Node :=
  VariableDeclarator (4, 10) (Identifier (4, 5) "p")
    (Some (ObjectExpression (8, 10))) "var".

Definition varObject_fillArgument : Node := Identifier (30, 31) "p".

Definition varObject : RuleContext.t :=
  contextOf defaultOptions varObject_text
    (topLevel [definedBy "p" varObject_declarator]).

(** *** [let a = []; new Array(3).fill(a);] *)

Definition letArray_text : string := "let a = []; new Array(3).fill(a);".

Definition letArray_declarator : Node :=
  VariableDeclarator (4, 10) (Identifier (4, 5) "a")
    (Some (ArrayExpression (8, 10))) "let".

Definition letArray_fillArgument : Node := Identifier (30, 31) "a".

Definition letArray : RuleContext.t :=
  contextOf defaultOptions letArray_text
    (topLevel [definedBy "a" letArray_declarator]).

(** *** [const p = {}; new Array(3).fill(p);] *)

Definition constObject_text : string := "const p = {}; new Array(3).fill(p);".

Definition constObject_init : Node := ObjectExpression (10, 12).

Definition constObject_declarator : Node :=
  VariableDeclarator (6, 12) (Identifier (6, 7) "p")
    (Some constObject_init) "const".

Definition constObject_fillArgument : Node := Identifier (32, 33) "p".

Definition constObject_call : Node :=
  CallExpression (14, 34)
    (MemberExpression (14, 31)
       (NewExpression (14, 26) (Identifier (18, 23) "Array")
          [Literal (24, 25) "3" None])
       (Identifier (27, 31) "fill"))
    [constObject_fillArgument].

Definition constObject (options : list UserOptions.t) : RuleContext.t :=
  contextOf options constObject_text
    (topLevel [definedBy "p" constObject_declarator]).

(** *** [const p = /pattern/; new Array(3).fill(p);] *)

Definition constRegex_text : string :=
  "const p = /pattern/; new Array(3).fill(p);".

Definition constRegex_declarator : Node :=
  VariableDeclarator (6, 19) (Identifier (6, 7) "p")
    (Some (Literal (10, 19) "/pattern/"
             (Some {| pattern := "pattern"; flags := "" |})))
    "const".

Definition constRegex_fillArgument : Node := Identifier (39, 40) "p".

Definition constRegex (options : list UserOptions.t) : RuleContext.t :=
  contextOf options constRegex_text
    (topLevel [definedBy "p" constRegex_declarator]).

(** *** [const a = a; new Array(3).fill(a);] *)

Definition selfReference_text : string := "const a = a; new Array(3).fill(a);".

Definition selfReference_declarator : Node :=
  VariableDeclarator (6, 11) (Identifier (6, 7) "a")
    (Some (Identifier (10, 11) "a")) "const".

Definition selfReference_fillArgument : Node := Identifier (31, 32) "a".

Definition selfReference : RuleContext.t :=
  contextOf defaultOptions selfReference_text
    (topLevel [definedBy "a" selfReference_declarator]).

(** *** [const a = b; const b = {}; new Array(3).fill(a);] *)

Definition chain_text : string :=
  "const a = b; const b = {}; new Array(3).fill(a);".

Definition chain_declarator_a : Node :=
  VariableDeclarator (6, 11) (Identifier (6, 7) "a")
    (Some (Identifier (10, 11) "b")) "const".

Definition chain_declarator_b : Node :=
  VariableDeclarator (19, 25) (Identifier (19, 20) "b")
    (Some (ObjectExpression (23, 25))) "const".

Definition chain_fillArgument : Node := Identifier (45, 46) "a".

Definition chain : RuleContext.t :=
  contextOf defaultOptions chain_text
    (topLevel [definedBy "a" chain_declarator_a;
               definedBy "b" chain_declarator_b]).

(** The depth of indirection in [chain]: [a] is bound to [b], [b] to an
    object. *)
Definition chain_rank (node : Node) : nat :=
  match node with
  | Identifier _ name =>
      if String.eqb "a" name then 2
      else if String.eqb "b" name then 1
      else 0
  | _ => 0
  end.

(** *** [function f() { return new Array(3).fill(arguments); }] *)

Definition insideFunction_text : string :=
  "function f() { return new Array(3).fill(arguments); }".

Definition insideFunction_f : Node := FunctionDeclaration (0, 53).

Definition insideFunction_fillArgument : Node :=
  Identifier (40, 49) "arguments".

(** A node within [f] lies in the scope of [f], any other at the top level. *)
Definition insideFunction_getScope (node : Node) : Scope.t :=
  let top := topLevel [definedBy "f" insideFunction_f] in
  if within (node_range node) (node_range insideFunction_f)
  then functionScope top
  else top.

Definition insideFunction : RuleContext.t :=
  RuleContext.mk defaultOptions
    (sourceCodeOf insideFunction_text insideFunction_getScope).

(** *** [const a = {}; new Array(3).fill(a);
         function f() { new Array(3).fill(a); new Array(3).fill(arguments); }]
    on one line *)

Definition nested_text : string :=
  "const a = {}; new Array(3).fill(a); function f() { new Array(3).fill(a); new Array(3).fill(arguments); }".

Definition nested_declarator : Node :=
  VariableDeclarator (6, 12) (Identifier (6, 7) "a")
    (Some (ObjectExpression (10, 12))) "const".

Definition nested_f : Node := FunctionDeclaration (36, 104).

(** The three fill arguments: [a] at the top level, [a] and [arguments] in
    [f]. *)
Definition nested_outer_a : Node := Identifier (32, 33) "a".
Definition nested_inner_a : Node := Identifier (69, 70) "a".
Definition nested_arguments : Node := Identifier (91, 100) "arguments".

Definition nested_getScope (node : Node) : Scope.t :=
  let top :=
    topLevel [definedBy "a" nested_declarator; definedBy "f" nested_f] in
  if within (node_range node) (node_range nested_f)
  then functionScope top
  else top.

Definition nested : RuleContext.t :=
  RuleContext.mk defaultOptions (sourceCodeOf nested_text nested_getScope).

(** No governed shape is met while [node] is classified. *)
Definition ungoverned (context : RuleContext.t) (node : option Node) : Prop :=
  forall n target,
    node = Some n -> reaches context n target -> governed target = false.

(** ** The test of the listener on the shape of the call *)

(** [isArrayFill] of the listener, for a node of type [CallExpression]. *)
Definition isArrayFill (node : Node) (context : RuleContext.t) : bool :=
  match node with
  | CallExpression _ (MemberExpression _ object property) arguments =>
      let getText := SourceCode.getText (RuleContext.sourceCode context) in
      let objectCallee := node_callee object in
      (strict_eq
         (match objectCallee with Some c => node_name c | None => None end)
         (Some "Array")
       || String.eqb (getText objectCallee) "Array.from")
      && strict_eq (node_name property) (Some "fill")
      && Nat.ltb 0 (length arguments)
  | _ => false
  end.

(** [node.arguments[0]] *)
Definition firstArgument (node : Node) : option Node :=
  match node with
  | CallExpression _ _ arguments | NewExpression _ _ arguments =>
      nth_error arguments 0
  | _ => None
  end.

(** [node.callee.object.callee] of a call on a member, [undefined] when the
    receiver is no call and no construction. *)
Definition receiverCallee (node : Node) : option Node :=
  match node with
  | CallExpression _ (MemberExpression _ object _) _ => node_callee object
  | _ => None
  end.

(** ** More programs *)

(** *** [const a = b; const b = a; new Array(3).fill(a);] *)

Definition mutual_text : string :=
  "const a = b; const b = a; new Array(3).fill(a);".

Definition mutual_declarator_a : Node :=
  VariableDeclarator (6, 11) (Identifier (6, 7) "a")
    (Some (Identifier (10, 11) "b")) "const".

Definition mutual_declarator_b : Node :=
  VariableDeclarator (19, 24) (Identifier (19, 20) "b")
    (Some (Identifier (23, 24) "a")) "const".

Definition mutual_fillArgument : Node := Identifier (44, 45) "a".

Definition mutual : RuleContext.t :=
  contextOf defaultOptions mutual_text
    (topLevel [definedBy "a" mutual_declarator_a;
               definedBy "b" mutual_declarator_b]).

(** *** [var x; new Array(3).fill(x);] *)

Definition noInit_text : string := "var x; new Array(3).fill(x);".

Definition noInit_declarator : Node :=
  VariableDeclarator (4, 5) (Identifier (4, 5) "x") None "var".

Definition noInit_fillArgument : Node := Identifier (25, 26) "x".

Definition noInit : RuleContext.t :=
  contextOf defaultOptions noInit_text
    (topLevel [definedBy "x" noInit_declarator]).

(** *** [function f(x) { return new Array(3).fill(x); }] *)

Definition parameter_text : string :=
  "function f(x) { return new Array(3).fill(x); }".

Definition parameter_f : Node := FunctionDeclaration (0, 46).

Definition parameter_fillArgument : Node := Identifier (41, 42) "x".

Definition parameter_call : Node :=
  CallExpression (23, 43)
    (MemberExpression (23, 40)
       (NewExpression (23, 35) (Identifier (27, 32) "Array")
          [Literal (33, 34) "3" None])
       (Identifier (36, 40) "fill"))
    [parameter_fillArgument].

(** The defining node of a parameter is its function. *)
Definition parameter_getScope (node : Node) : Scope.t :=
  let top := topLevel [definedBy "f" parameter_f] in
  if within (node_range node) (node_range parameter_f)
  then Scope.mk [Var.mk "arguments" []; definedBy "x" parameter_f] (Some top)
  else top.

Definition parameter (options : list UserOptions.t) : RuleContext.t :=
  RuleContext.mk options (sourceCodeOf parameter_text parameter_getScope).

(** *** [list.fill({});] *)

Definition plain_text : string := "list.fill({});".

Definition plain_call : Node :=
  CallExpression (0, 13)
    (MemberExpression (0, 9) (Identifier (0, 4) "list")
       (Identifier (5, 9) "fill"))
    [ObjectExpression (10, 12)].

Definition plain : RuleContext.t :=
  contextOf defaultOptions plain_text (topLevel []).

(** *** [new Array(3).fill(new class {});] *)

Definition anonymous_text : string := "new Array(3).fill(new class {});".

Definition anonymous_callee : Node := ClassExpression (22, 30).

Definition anonymous_fillArgument : Node :=
  NewExpression (18, 30) anonymous_callee [].

Definition anonymous : RuleContext.t :=
  contextOf defaultOptions anonymous_text (topLevel []).

(** *** [new Array(3).fill(new Map());] *)

Definition newMap_text : string := "new Array(3).fill(new Map());".

Definition newMap_fillArgument : Node :=
  NewExpression (18, 27) (Identifier (22, 25) "Map") [].

Definition newMap_call : Node :=
  CallExpression (0, 28)
    (MemberExpression (0, 17)
       (NewExpression (0, 12) (Identifier (4, 9) "Array")
          [Literal (10, 11) "3" None])
       (Identifier (13, 17) "fill"))
    [newMap_fillArgument].

Definition newMap : RuleContext.t :=
  contextOf defaultOptions newMap_text (topLevel []).

(** *** [new Array(3).fill(undefined);] *)

Definition undefined_text : string := "new Array(3).fill(undefined);".

Definition undefined_fillArgument : Node := Identifier (18, 27) "undefined".

(** In a module the scope of the top level is the scope of the module, which
    holds the declarations of the module only. *)
Definition undefinedInModule : RuleContext.t :=
  contextOf defaultOptions undefined_text (topLevel []).

(** In a script the scope of the top level is the global scope, in which
    ESLint enters the globals of the language, each without definition. *)
Definition undefinedInScript : RuleContext.t :=
  contextOf defaultOptions undefined_text
    (topLevel [Var.mk "Array" []; Var.mk "undefined" []]).

(** The call of [insideFunction], whose argument is [arguments]. *)
Definition insideFunction_call : Node :=
  CallExpression (22, 50)
    (MemberExpression (22, 39)
       (NewExpression (22, 34) (Identifier (26, 31) "Array")
          [Literal (32, 33) "3" None])
       (Identifier (35, 39) "fill"))
    [insideFunction_fillArgument].

(** ** The rule as it stands in [src/unnamed/part_000]

    The same rule without options and without the treatment of declarators:
    one recursive classifier and a listener that derives the label itself. *)

Module Part000.

Fixpoint isReferenceType (fuel : nat) (node : option Node)
    (context : RuleContext.t) {struct fuel} : Result bool :=
  match fuel with
  | O => OutOfFuel
  | S fuel =>
      match node with
      | None => Return false
      | Some node =>
          match node with
          | Literal _ _ regex =>
              (* node.regex !== undefined *)
              Return (match regex with Some _ => true | None => false end)
          | TemplateLiteral _ _ => Return false
          | Identifier _ _ =>
              let variables :=
                Scope.variables
                  (SourceCode.getScope (RuleContext.sourceCode context)
                     node) in
              let variable :=
                find (fun v => strict_eq (Some (Var.name v)) (node_name node))
                  variables in
              (* the argument [variable?.defs[0].node] of the third [log] is
                 evaluated although nothing is printed *)
              _ <-
                match variable with
                | None => Return None
                | Some v =>
                    match nth_error (Var.defs v) 0 with
                    | None => Throw readNodeOfUndefined
                    | Some d => Return (Def.node d)
                    end
                end ;;
              (* !variable || !variable.defs[0]?.node *)
              match variable with
              | None => Return false
              | Some v =>
                  match nth_error (Var.defs v) 0 with
                  | None => Return false
                  | Some d =>
                      match Def.node d with
                      | None => Return false
                      | Some definitionNode =>
                          isReferenceType fuel (Some definitionNode) context
                      end
                  end
              end
          | _ =>
              if isSymbolCall node
                 && noVariables
                      (Scope.variables
                         (SourceCode.getScope
                            (RuleContext.sourceCode context) node))
              then Return false
              else Return true
          end
      end
  end.

(** The label computed by the [switch] of the listener; a template string
    prints a missing name as [undefined]. *)
Definition getType (fillArgument : Node) : string :=
  match fillArgument with
  | ObjectExpression _ => "Object"
  | ArrayExpression _ => "Array"
  | NewExpression _ callee _ =>
      "new "
      ++ match node_name callee with Some n => n | None => "undefined" end
      ++ "()"
  | FunctionExpression _ | ArrowFunctionExpression _ => "Function"
  | Literal _ _ (Some _) => "RegExp"
  | Identifier _ name => "variable (" ++ name ++ ")"
  | _ => "unknown"
  end.

(** The problem reported: the call itself and the label. *)
Record Problem : Type :=
  { problem_node : Node; messageId : string; data_type : string }.

(** [isArrayDotFill] of the listener *)
Definition isArrayDotFill (node : Node) : bool :=
  match node with
  | CallExpression _ (MemberExpression _ object property) arguments =>
      strict_eq
        (match node_callee object with Some c => node_name c | None => None end)
        (Some "Array")
      && strict_eq (node_name property) (Some "fill")
      && Nat.ltb 0 (length arguments)
  | _ => false
  end.

(** [create(context).CallExpression(node)] *)
Definition CallExpression_listener (fuel : nat) (node : Node)
    (context : RuleContext.t) : Result (option Problem) :=
  if negb (isArrayDotFill node) then Return None
  else
    let fillArgument := firstArgument node in
    r <- isReferenceType fuel fillArgument context ;;
    match r, fillArgument with
    | true, Some fillArgument =>
        Return (Some {| problem_node := node;
                        messageId := MESSAGE_ID_ERROR;
                        data_type := getType fillArgument |})
    | _, _ => Return None
    end.

End Part000.

(** ** Unfolding lemmas *)

Lemma isIdentifierReferenceType_resolve (fuel : nat) (node : Node)
    (context : RuleContext.t) :
  isIdentifierReferenceType (S fuel) node context =
  match resolve node context with
  | Unresolved | NotChecked => Return false
  | NoDefinition => Throw readNodeOfUndefined
  | Reclassify target => isReferenceType fuel target context
  end.
Proof.
  unfold resolve, findVariable. simpl.
  destruct (find _ _) as [v|]; simpl; [|reflexivity].
  destruct (Var.defs v) as [|d rest]; simpl; [reflexivity|].
  destruct (Def.node d) as [definitionNode|]; simpl; [|reflexivity].
  destruct definitionNode; try reflexivity.
  destruct (String.eqb parent_kind "let"); reflexivity.
Qed.

Lemma isReferenceType_Identifier (fuel : nat) (range : Range) (name : string)
    (context : RuleContext.t) :
  isReferenceType (S (S fuel)) (Some (Identifier range name)) context =
  match resolve (Identifier range name) context with
  | Unresolved | NotChecked => Return false
  | NoDefinition => Throw readNodeOfUndefined
  | Reclassify target => isReferenceType fuel target context
  end.
Proof.
  rewrite <- isIdentifierReferenceType_resolve. reflexivity.
Qed.

(** Rewrites the classification of an identifier whose variable [Hv], list
    of definitions [Hd] and defining node [Hn] are known. *)
Ltac resolve_with Hv Hd Hn :=
  rewrite isReferenceType_Identifier; unfold resolve;
  rewrite Hv, Hd, Hn.

(** Outside identifiers one call settles the verdict. *)
Lemma direct_verdict (node : Node) (context : RuleContext.t) :
  (forall range name, node <> Identifier range name) ->
  exists b, isReferenceType 1 (Some node) context = Return b.
Proof.
  intros Hid.
  destruct node; simpl;
    try (repeat destruct (_ && _)%bool; eexists; reflexivity).
  exfalso. eapply Hid. reflexivity.
Qed.

(** ** The budget only has to be large enough *)

Lemma fuel_step (fuel : nat) :
  (forall node context r,
      isReferenceType fuel node context = r -> r <> OutOfFuel ->
      isReferenceType (S fuel) node context = r)
  /\ (forall node context r,
      isIdentifierReferenceType fuel node context = r -> r <> OutOfFuel ->
      isIdentifierReferenceType (S fuel) node context = r).
Proof.
  induction fuel as [|fuel [IHr IHi]].
  - split; intros node context r H Hr; simpl in H; subst r;
      exfalso; apply Hr; reflexivity.
  - split; intros node context r H Hr.
    + destruct node as [node|]; [|exact H].
      destruct node; try exact H.
      change (isIdentifierReferenceType (S fuel) (Identifier range name)
                context = r).
      apply IHi; [exact H | exact Hr].
    + rewrite isIdentifierReferenceType_resolve.
      rewrite isIdentifierReferenceType_resolve in H.
      destruct (resolve node context); try exact H.
      apply IHr; [exact H | exact Hr].
Qed.

Lemma fuel_monotone (fuel fuel' : nat) (node : option Node)
    (context : RuleContext.t) (r : Result bool) :
  fuel <= fuel' ->
  isReferenceType fuel node context = r -> r <> OutOfFuel ->
  isReferenceType fuel' node context = r.
Proof.
  induction 1 as [|fuel' Hle IH]; intros H Hr; [exact H|].
  apply (proj1 (fuel_step fuel')); [apply IH; assumption | exact Hr].
Qed.

(** Two budgets that both suffice give the same outcome. *)
Lemma outcome_unique (fuel fuel' : nat) (node : option Node)
    (context : RuleContext.t) :
  isReferenceType fuel node context <> OutOfFuel ->
  isReferenceType fuel' node context <> OutOfFuel ->
  isReferenceType fuel node context = isReferenceType fuel' node context.
Proof.
  intros H H'. destruct (Nat.le_ge_cases fuel fuel') as [Hle|Hle].
  - symmetry. eapply fuel_monotone; eauto.
  - eapply fuel_monotone; eauto.
Qed.

Lemma returns_unique (node : option Node) (context : RuleContext.t)
    (b b' : bool) :
  returns node context b -> returns node context b' -> b = b'.
Proof.
  intros [fuel H] [fuel' H'].
  assert (E : isReferenceType fuel node context
              = isReferenceType fuel' node context).
  { apply outcome_unique; [rewrite H | rewrite H']; discriminate. }
  rewrite H, H' in E. injection E. auto.
Qed.

Lemma throws_never_returns (node : option Node) (context : RuleContext.t)
    (e : Error) (b : bool) :
  throws node context e -> ~ returns node context b.
Proof.
  intros [fuel H] [fuel' H'].
  assert (E : isReferenceType fuel node context
              = isReferenceType fuel' node context).
  { apply outcome_unique; [rewrite H | rewrite H']; discriminate. }
  rewrite H, H' in E. discriminate E.
Qed.

Lemma diverges_never_terminates (node : option Node)
    (context : RuleContext.t) :
  diverges node context -> ~ terminates node context.
Proof. intros Hd [fuel H]. apply H. apply Hd. Qed.

(** ** Identifiers the rule cannot resolve *)

(** No variable of that name in the scope of the identifier: not flagged. *)
Lemma identifier_not_in_scope (fuel : nat) (range : Range) (name : string)
    (context : RuleContext.t) :
  findVariable (Identifier range name) context = None ->
  isReferenceType (S (S fuel)) (Some (Identifier range name)) context
  = Return false.
Proof.
  intros H. rewrite isReferenceType_Identifier. unfold resolve.
  rewrite H. reflexivity.
Qed.

(** A first definition that carries no node: not flagged. *)
Lemma identifier_without_definition_node (fuel : nat) (range : Range)
    (name : string) (context : RuleContext.t) (v : Var.t) (d : Def.t)
    (rest : list Def.t) :
  findVariable (Identifier range name) context = Some v ->
  Var.defs v = d :: rest ->
  Def.node d = None ->
  isReferenceType (S (S fuel)) (Some (Identifier range name)) context
  = Return false.
Proof.
  intros Hv Hd Hn. resolve_with Hv Hd Hn. reflexivity.
Qed.

(** A variable without any definition: reading [defs[0].node] throws. *)
Lemma identifier_without_definitions (fuel : nat) (range : Range)
    (name : string) (context : RuleContext.t) (v : Var.t) :
  findVariable (Identifier range name) context = Some v ->
  Var.defs v = [] ->
  isReferenceType (S (S fuel)) (Some (Identifier range name)) context
  = Throw readNodeOfUndefined.
Proof.
  intros Hv Hd. rewrite isReferenceType_Identifier. unfold resolve.
  rewrite Hv, Hd. reflexivity.
Qed.

(** ** Literals, template literals and the absent node *)

(** The absent node, every node of type [Literal] that is not a regular
    expression (number, string, boolean, null, bigint) and every template
    literal, whatever it interpolates, are value types under every
    configuration.  [undefined] is no literal but an identifier. *)
Lemma primitives_are_value_type (fuel : nat) (context : RuleContext.t) :
  isReferenceType (S fuel) None context = Return false
  /\ (forall range raw,
        isReferenceType (S fuel) (Some (Literal range raw None)) context
        = Return false)
  /\ (forall range expressions,
        isReferenceType (S fuel) (Some (TemplateLiteral range expressions))
          context
        = Return false).
Proof.
  repeat split; intros; simpl; try reflexivity.
  rewrite andb_false_r. reflexivity.
Qed.

(** ** The two options *)

Lemma default_options (sourceCode : SourceCode.t) :
  getOptions (RuleContext.mk [] sourceCode) = DEFAULTS
  /\ getOptions (RuleContext.mk defaultOptions sourceCode) = DEFAULTS.
Proof. split; reflexivity. Qed.

(** C7. A regular expression literal and a construction [new RegExp(...)]
    are value types when the options given to the rule set
    [canFillWithRegexp] to true or leave it out, which makes it true by
    default, also when no options object is given; they are reference types
    when the options set it to false.  The two forms get the same verdict. *)
Theorem regexp_follows_canFillWithRegexp (fuel : nat)
    (options : list UserOptions.t) (sourceCode : SourceCode.t)
    (range range' range'' : Range) (raw : string) (regex : RegexInfo)
    (arguments : list Node) :
  isReferenceType (S fuel) (Some (Literal range raw (Some regex)))
    (RuleContext.mk options sourceCode)
  = Return
      match options with
      | o :: _ =>
          match UserOptions.canFillWithRegexp o with
          | Some false => true
          | Some true | None => false
          end
      | [] => false
      end
  /\ isReferenceType (S fuel)
       (Some (NewExpression range' (Identifier range'' "RegExp") arguments))
       (RuleContext.mk options sourceCode)
     = Return
         match options with
         | o :: _ =>
             match UserOptions.canFillWithRegexp o with
             | Some false => true
             | Some true | None => false
             end
         | [] => false
         end.
Proof.
  destruct options as [|[[[|]|] [[|]|]] rest]; split; reflexivity.
Qed.

(** C8. A function expression and an arrow function are value types when
    the options given to the rule set [canFillWithFunction] to true or leave
    it out, which makes it true by default, also when no options object is
    given; they are reference types when the options set it to false. *)
Theorem function_follows_canFillWithFunction (fuel : nat)
    (options : list UserOptions.t) (sourceCode : SourceCode.t)
    (range : Range) :
  isReferenceType (S fuel) (Some (FunctionExpression range))
    (RuleContext.mk options sourceCode)
  = Return
      match options with
      | o :: _ =>
          match UserOptions.canFillWithFunction o with
          | Some false => true
          | Some true | None => false
          end
      | [] => false
      end
  /\ isReferenceType (S fuel) (Some (ArrowFunctionExpression range))
       (RuleContext.mk options sourceCode)
     = Return
         match options with
         | o :: _ =>
             match UserOptions.canFillWithFunction o with
             | Some false => true
             | Some true | None => false
             end
         | [] => false
         end.
Proof.
  destruct options as [|[[[|]|] [[|]|]] rest]; split; reflexivity.
Qed.

(** ** Calls of [Symbol] *)

(** C2 fails in the code: in [const x = 1; new Array(3).fill(Symbol('foo'));]
    the scope of the call has a variable, which is not [Symbol], and the call
    of [Symbol] is classified as a reference type instead of a value
    type. *)
Lemma symbol_call_beside_a_variable :
  returns (Some symbolCall_fillArgument) symbolCall true
  /\ ~ returns (Some symbolCall_fillArgument) symbolCall false.
Proof.
  assert (H : returns (Some symbolCall_fillArgument) symbolCall true)
    by (exists 1; reflexivity).
  split; [exact H|].
  intros H'. pose proof (returns_unique _ _ _ _ H H'). discriminate.
Qed.

(** What the code does on a call whose callee is the identifier [Symbol]: it
    tests whether the scope of the call has any variable at all, not whether
    [Symbol] is declared there. *)
Lemma symbol_call_verdict (fuel : nat) (context : RuleContext.t)
    (range range' : Range) (arguments : list Node) :
  isReferenceType (S fuel)
    (Some (CallExpression range (Identifier range' "Symbol") arguments))
    context
  = Return
      (negb
         (noVariables
            (Scope.variables
               (SourceCode.getScope (RuleContext.sourceCode context)
                  (CallExpression range (Identifier range' "Symbol")
                     arguments))))).
Proof.
  simpl.
  destruct (noVariables _); simpl; [reflexivity|].
  rewrite !andb_false_r. reflexivity.
Qed.

(** ** Identifiers bound by a variable declaration *)

(** C1, as stated, fails: a binding declared with [var] may be assigned
    again, and yet the identifier is classified from its initializer. *)
Lemma var_binding_is_classified_from_initializer :
  reassignableKind "var" = true
  /\ returns (Some varObject_fillArgument) varObject true
  /\ ~ returns (Some varObject_fillArgument) varObject false.
Proof.
  assert (H : returns (Some varObject_fillArgument) varObject true)
    by (exists 3; reflexivity).
  repeat split; [exact H|].
  intros H'. pose proof (returns_unique _ _ _ _ H H'). discriminate.
Qed.

(** C1, amended. An identifier whose variable is first defined by a
    declarator of a [let] declaration is a value type, whatever the
    initializer is. *)
Theorem let_binding_is_value_type (fuel : nat) (context : RuleContext.t)
    (range : Range) (name : string) (v : Var.t) (d : Def.t)
    (rest : list Def.t) (range' : Range) (id : Node) (init : option Node) :
  findVariable (Identifier range name) context = Some v ->
  Var.defs v = d :: rest ->
  Def.node d = Some (VariableDeclarator range' id init "let") ->
  isReferenceType (S (S fuel)) (Some (Identifier range name)) context
  = Return false.
Proof.
  intros Hv Hd Hn. resolve_with Hv Hd Hn. reflexivity.
Qed.

Lemma let_binding_is_value_type_witness :
  isReferenceType 2 (Some letArray_fillArgument) letArray = Return false.
Proof.
  apply (let_binding_is_value_type 0 letArray (30, 31) "a"
           (definedBy "a" letArray_declarator)
           (Def.mk (Some letArray_declarator)) []
           (4, 10) (Identifier (4, 5) "a") (Some (ArrayExpression (8, 10))));
    reflexivity.
Defined.

(** C4, as stated, fails: for [const p = {}; p] the label is [variable (p)],
    not the label [Object] of the initializer. *)
Lemma const_object_label :
  classify 3 (Some constObject_fillArgument) (constObject defaultOptions)
  = Return {| isReference := true; typeLabel := "variable (p)" |}
  /\ classify 1 (Some constObject_init) (constObject defaultOptions)
     = Return {| isReference := true; typeLabel := "Object" |}
  /\ classify 3 (Some constObject_fillArgument) (constObject defaultOptions)
     <> classify 1 (Some constObject_init) (constObject defaultOptions).
Proof. repeat split; try reflexivity. discriminate. Qed.

(** The listener reports that label. *)
Lemma const_object_report :
  CallExpression_listener 3 constObject_call (constObject defaultOptions)
  = Return (Some {| problem_node := constObject_fillArgument;
                    messageId := MESSAGE_ID_ERROR;
                    data_actual := "Array.fill()";
                    data_type := " (variable (p))" |}).
Proof. reflexivity. Qed.

(** C4, amended. For an identifier whose variable is first defined by a
    [const] declarator with an initializer, the boolean verdict is that of the
    initializer; the label, when the verdict is reference type, is
    [variable (<name>)]. *)
Theorem const_binding_verdict (fuel : nat) (context : RuleContext.t)
    (range : Range) (name : string) (v : Var.t) (d : Def.t)
    (rest : list Def.t) (range' : Range) (id init : Node) :
  findVariable (Identifier range name) context = Some v ->
  Var.defs v = d :: rest ->
  Def.node d = Some (VariableDeclarator range' id (Some init) "const") ->
  isReferenceType (S (S fuel)) (Some (Identifier range name)) context
  = isReferenceType fuel (Some init) context
  /\ forall verdict,
       classify fuel (Some init) context = Return verdict ->
       classify (S (S fuel)) (Some (Identifier range name)) context
       = Return {| isReference := isReference verdict;
                   typeLabel :=
                     if isReference verdict
                     then "variable (" ++ name ++ ")"
                     else "" |}.
Proof.
  intros Hv Hd Hn.
  assert (E : isReferenceType (S (S fuel)) (Some (Identifier range name))
                context
              = isReferenceType fuel (Some init) context).
  { resolve_with Hv Hd Hn. reflexivity. }
  split; [exact E|].
  intros verdict. unfold classify. rewrite E.
  destruct (isReferenceType fuel (Some init) context) as [[|]| |]; simpl;
    intros H; inversion H; reflexivity.
Qed.

Lemma const_binding_verdict_witness :
  isReferenceType 3 (Some constObject_fillArgument)
    (constObject defaultOptions)
  = isReferenceType 1 (Some constObject_init) (constObject defaultOptions)
  /\ forall verdict,
       classify 1 (Some constObject_init) (constObject defaultOptions)
       = Return verdict ->
       classify 3 (Some constObject_fillArgument)
         (constObject defaultOptions)
       = Return {| isReference := isReference verdict;
                   typeLabel :=
                     if isReference verdict
                     then "variable (" ++ "p" ++ ")"
                     else "" |}.
Proof.
  apply (const_binding_verdict 1 (constObject defaultOptions) (32, 33) "p"
           (definedBy "p" constObject_declarator)
           (Def.mk (Some constObject_declarator)) []
           (6, 12) (Identifier (6, 7) "p") constObject_init);
    reflexivity.
Defined.

(** ** The options and the shapes they govern *)

(** C6, as stated, fails: an identifier is none of the governed shapes, and
    the verdict of one bound to a regular expression changes with
    [canFillWithRegexp]. *)
Lemma identifier_verdict_depends_on_options :
  governed constRegex_fillArgument = false
  /\ isReferenceType 3 (Some constRegex_fillArgument)
       (constRegex defaultOptions)
     = Return false
  /\ isReferenceType 3 (Some constRegex_fillArgument) (constRegex regexpOff)
     = Return true.
Proof. repeat split. Qed.

Section TwoConfigurations.

Variable sourceCode : SourceCode.t.
Variables options1 options2 : list UserOptions.t.

Lemma resolve_ignores_options (node : Node) :
  resolve node (RuleContext.mk options1 sourceCode)
  = resolve node (RuleContext.mk options2 sourceCode).
Proof. reflexivity. Qed.

Lemma getType_ignores_options (node : Node) :
  getType node (RuleContext.mk options1 sourceCode)
  = getType node (RuleContext.mk options2 sourceCode).
Proof. reflexivity. Qed.

Lemma isReferenceType_ignores_options (fuel : nat) :
  (forall node,
     ungoverned (RuleContext.mk options1 sourceCode) node ->
     isReferenceType fuel node (RuleContext.mk options1 sourceCode)
     = isReferenceType fuel node (RuleContext.mk options2 sourceCode))
  /\ (forall range name,
        ungoverned (RuleContext.mk options1 sourceCode)
          (Some (Identifier range name)) ->
        isIdentifierReferenceType fuel (Identifier range name)
          (RuleContext.mk options1 sourceCode)
        = isIdentifierReferenceType fuel (Identifier range name)
            (RuleContext.mk options2 sourceCode)).
Proof.
  induction fuel as [|fuel [IHr IHi]]; [split; reflexivity|].
  split.
  - intros [node|] Hu; [|reflexivity].
    assert (Hg : governed node = false)
      by (apply (Hu node node eq_refl); constructor).
    unfold governed in Hg.
    apply orb_false_iff in Hg. destruct Hg as [Hg Hf].
    apply orb_false_iff in Hg. destruct Hg as [Hl Hn].
    destruct node; try (apply IHi; exact Hu);
      simpl; simpl in Hl, Hn, Hf;
      rewrite ?Hl, ?Hn, ?Hf, ?andb_false_r; try reflexivity;
      try discriminate.
  - intros range name Hu.
    rewrite !isIdentifierReferenceType_resolve.
    rewrite <- resolve_ignores_options.
    destruct (resolve (Identifier range name)
                (RuleContext.mk options1 sourceCode))
      as [| | |target] eqn:E;
      try reflexivity.
    apply IHr. intros n t Hn Hr. subst target.
    apply (Hu (Identifier range name) t eq_refl).
    eapply reaches_step; eauto.
Qed.

End TwoConfigurations.

(** C6, amended. When neither the node nor any node reached from it through
    the resolution of identifiers is a regular expression literal, a
    construction [new RegExp(...)] or a function, the verdict, boolean and
    label, is the same under every two configurations. *)
Theorem options_matter_only_through_governed_shapes (fuel : nat)
    (sourceCode : SourceCode.t) (options1 options2 : list UserOptions.t)
    (node : Node) :
  (forall target,
     reaches (RuleContext.mk options1 sourceCode) node target ->
     governed target = false) ->
  classify fuel (Some node) (RuleContext.mk options1 sourceCode)
  = classify fuel (Some node) (RuleContext.mk options2 sourceCode).
Proof.
  intros H. unfold classify.
  rewrite (proj1 (isReferenceType_ignores_options
                    sourceCode options1 options2 fuel) (Some node)).
  - reflexivity.
  - intros n target Hn Hr. injection Hn as <-. apply H. exact Hr.
Qed.

Lemma options_matter_only_through_governed_shapes_witness :
  classify 3 (Some constObject_fillArgument) (constObject defaultOptions)
  = classify 3 (Some constObject_fillArgument) (constObject allOff).
Proof.
  apply (options_matter_only_through_governed_shapes 3
           (RuleContext.sourceCode (constObject defaultOptions))
           defaultOptions allOff constObject_fillArgument).
  intros target H.
  inversion H as [|range0 name0 t n Hres Hrest]; subst; [reflexivity|].
  vm_compute in Hres. injection Hres as <-.
  inversion Hrest; subst. reflexivity.
Defined.

(** ** Termination *)

Lemma selfReference_out_of_fuel (fuel : nat) (range : Range) :
  isReferenceType fuel (Some (Identifier range "a")) selfReference = OutOfFuel
  /\ isReferenceType (S fuel) (Some (Identifier range "a")) selfReference
     = OutOfFuel.
Proof.
  revert range. induction fuel as [|fuel IH]; intros range.
  - split; reflexivity.
  - split; [apply IH|].
    rewrite isReferenceType_Identifier.
    change (isReferenceType fuel (Some (Identifier (10, 11) "a"))
              selfReference = OutOfFuel).
    apply IH.
Qed.

Lemma selfReference_diverges :
  diverges (Some selfReference_fillArgument) selfReference.
Proof. intros fuel. apply selfReference_out_of_fuel. Qed.

(** C5, as stated, fails: on the binding [const a = a], which refers to
    itself, the classification of [a] never comes to an end. *)
Lemma self_reference_never_terminates :
  ~ terminates (Some selfReference_fillArgument) selfReference.
Proof.
  apply diverges_never_terminates. exact selfReference_diverges.
Qed.

Section Ranked.

Variable context : RuleContext.t.

(** [rank] bounds the depth of identifier indirection: it drops at every
    step from an identifier to the node classified in its place. *)
Variable rank : Node -> nat.
Hypothesis rank_drops : forall range name target,
  resolve (Identifier range name) context = Reclassify (Some target) ->
  rank target < rank (Identifier range name).

Lemma ends_within_rank (n : nat) : forall node,
  rank node < n ->
  exists fuel,
    fuel <= 2 * n + 1
    /\ isReferenceType fuel (Some node) context <> OutOfFuel.
Proof.
  induction n as [|n IH]; intros node Hn; [lia|].
  destruct node;
    try (match goal with
         | |- exists fuel, _ /\ isReferenceType fuel (Some ?n) _ <> _ =>
             destruct (direct_verdict n context) as [b E];
             [intros; discriminate
             | exists 1; split; [lia | rewrite E; discriminate]]
         end).
  destruct (resolve (Identifier range name) context)
    as [| | |[target|]] eqn:E.
  - exists 2. split; [lia|].
    rewrite isReferenceType_Identifier, E. discriminate.
  - exists 2. split; [lia|].
    rewrite isReferenceType_Identifier, E. discriminate.
  - exists 2. split; [lia|].
    rewrite isReferenceType_Identifier, E. discriminate.
  - destruct (IH target) as [fuel [Hle Hf]].
    { apply rank_drops in E. lia. }
    exists (S (S fuel)). split; [lia|].
    rewrite isReferenceType_Identifier, E. exact Hf.
  - exists 3. split; [lia|].
    rewrite isReferenceType_Identifier, E. discriminate.
Qed.

Lemma ends_with_budget_of_rank (node : Node) :
  isReferenceType (2 * rank node + 3) (Some node) context <> OutOfFuel.
Proof.
  destruct (ends_within_rank (S (rank node)) node) as [fuel [Hle Hf]];
    [lia|].
  rewrite (fuel_monotone fuel (2 * rank node + 3) (Some node) context
             (isReferenceType fuel (Some node) context));
    [exact Hf | lia | reflexivity | exact Hf].
Qed.

(** When, besides, every variable that is found has a definition, the
    classification returns a verdict. *)
Hypothesis defs_not_empty : forall range name,
  resolve (Identifier range name) context <> NoDefinition.

Lemma returns_within_rank (n : nat) : forall node,
  rank node < n -> exists b, returns (Some node) context b.
Proof.
  induction n as [|n IH]; intros node Hn; [lia|].
  destruct node;
    try (match goal with
         | |- exists b, returns (Some ?n) _ b =>
             destruct (direct_verdict n context) as [b E];
             [intros; discriminate | exists b, 1; exact E]
         end).
  destruct (resolve (Identifier range name) context)
    as [| | |[target|]] eqn:E.
  - exists false, 2. rewrite isReferenceType_Identifier, E. reflexivity.
  - exfalso. exact (defs_not_empty range name E).
  - exists false, 2. rewrite isReferenceType_Identifier, E. reflexivity.
  - destruct (IH target) as [b [fuel Hf]].
    { apply rank_drops in E. lia. }
    exists b, (S (S fuel)). rewrite isReferenceType_Identifier, E. exact Hf.
  - exists false, 3. rewrite isReferenceType_Identifier, E. reflexivity.
Qed.

End Ranked.

(** C5, amended. When the chain of identifier indirection is finite, that is
    when some rank on nodes drops at every step from an identifier to the node
    classified in its place, the classification comes to an end within a
    recursion depth bounded by the rank of the node. *)
Theorem classification_ends_on_ranked_bindings (context : RuleContext.t)
    (rank : Node -> nat) (node : Node) :
  (forall range name target,
     resolve (Identifier range name) context = Reclassify (Some target) ->
     rank target < rank (Identifier range name)) ->
  isReferenceType (2 * rank node + 3) (Some node) context <> OutOfFuel.
Proof.
  intros H. apply ends_with_budget_of_rank. exact H.
Qed.

Lemma classification_ends_on_ranked_bindings_witness :
  isReferenceType (2 * chain_rank chain_fillArgument + 3)
    (Some chain_fillArgument) chain <> OutOfFuel.
Proof.
  apply (classification_ends_on_ranked_bindings chain chain_rank
           chain_fillArgument).
  intros range name target. unfold resolve, findVariable, chain_rank.
  cbn -[String.eqb].
  destruct (String.eqb "a" name); cbn -[String.eqb].
  - intros H. injection H as <-. cbn. lia.
  - destruct (String.eqb "b" name); cbn -[String.eqb].
    + intros H. injection H as <-. cbn. lia.
    + discriminate.
Defined.

(** The chain [a], [b], [{}] is classified as a reference type. *)
Lemma chain_verdict :
  isReferenceType 5 (Some chain_fillArgument) chain = Return true.
Proof. reflexivity. Qed.

(** ** Variables without a definition *)

(** C3 fails in the code: the identifier [arguments] of a function body
    resolves to a variable whose list of definitions is empty, and its
    classification raises a [TypeError] instead of returning a verdict. *)
Theorem arguments_identifier_throws :
  throws (Some insideFunction_fillArgument) insideFunction
    readNodeOfUndefined
  /\ forall b, ~ returns (Some insideFunction_fillArgument) insideFunction b.
Proof.
  assert (H : throws (Some insideFunction_fillArgument) insideFunction
                readNodeOfUndefined) by (exists 2; reflexivity).
  split; [exact H|].
  intros b. eapply throws_never_returns. exact H.
Qed.

(** At the top level the identifier [a] bound to an object is flagged. *)
Lemma nested_outer_verdict :
  isReferenceType 3 (Some nested_outer_a) nested = Return true.
Proof. reflexivity. Qed.

(** C10 holds in its first half and fails in the code in its second. Inside
    the function the identifier [a], declared in the enclosing scope only, is
    a value type, although its declaration has an object as initializer; the
    identifier [arguments], whose variable has no first definition, makes the
    classification raise a [TypeError] instead of returning value type. *)
Theorem resolution_in_one_scope_and_first_definition :
  isReferenceType 2 (Some nested_inner_a) nested = Return false
  /\ isReferenceType 2 (Some nested_arguments) nested
     = Throw readNodeOfUndefined.
Proof. split; reflexivity. Qed.

(** C9 fails in the code for [undefined], which is an identifier and not a
    literal: in a module, where no variable has that name, it is a value type,
    but at the top level of a script, where the global scope lists it without
    definition, its classification raises a [TypeError] instead of returning
    value type.  For the absent node, the literals and the template literals
    the claim holds ([primitives_are_value_type]). *)
Theorem undefined_identifier_throws_in_script :
  isReferenceType 2 (Some undefined_fillArgument) undefinedInModule
  = Return false
  /\ throws (Some undefined_fillArgument) undefinedInScript
       readNodeOfUndefined
  /\ forall b, ~ returns (Some undefined_fillArgument) undefinedInScript b.
Proof.
  assert (H : throws (Some undefined_fillArgument) undefinedInScript
                readNodeOfUndefined) by (exists 2; reflexivity).
  split; [reflexivity|]. split; [exact H|].
  intros b. eapply throws_never_returns. exact H.
Qed.

(** ** Cases of the test suite *)

(** [function foo() {}; new Array(7).fill(foo);] is valid: the identifier
    resolves to the function declaration. *)
Example test_function_declaration :
  isReferenceType 3 (Some (Identifier (37, 40) "foo"))
    (contextOf defaultOptions "function foo() {}; new Array(7).fill(foo);"
       (topLevel [definedBy "foo" (FunctionDeclaration (0, 17))]))
  = Return false.
Proof. reflexivity. Qed.

(** [class BarClass {}; new Array(3).fill(BarClass);] is invalid. *)
Example test_class_declaration :
  isReferenceType 3 (Some (Identifier (37, 45) "BarClass"))
    (contextOf defaultOptions
       "class BarClass {}; new Array(3).fill(BarClass);"
       (topLevel [definedBy "BarClass" (ClassDeclaration (0, 17))]))
  = Return true.
Proof. reflexivity. Qed.

(** [new Array(3).fill(() => 1);] is valid by default and invalid with
    [canFillWithFunction: false]. *)
Example test_arrow_function :
  isReferenceType 1 (Some (ArrowFunctionExpression (18, 25)))
    (contextOf defaultOptions "new Array(3).fill(() => 1);" (topLevel []))
  = Return false
  /\ classify 1 (Some (ArrowFunctionExpression (18, 25)))
       (contextOf functionOff "new Array(3).fill(() => 1);" (topLevel []))
     = Return {| isReference := true; typeLabel := "Function" |}.
Proof. split; reflexivity. Qed.

(** [const map = new Map(); new Array(3).fill(map);] is invalid, with the
    label of a variable. *)
Example test_const_map :
  classify 3 (Some (Identifier (41, 44) "map"))
    (contextOf defaultOptions "const map = new Map(); new Array(3).fill(map);"
       (topLevel
          [definedBy "map"
             (VariableDeclarator (6, 21) (Identifier (6, 9) "map")
                (Some (NewExpression (12, 21) (Identifier (16, 19) "Map") []))
                "const")]))
  = Return {| isReference := true; typeLabel := "variable (map)" |}.
Proof. reflexivity. Qed.

(** [const p = /pattern/; new Array(3).fill(p);] is valid by default. *)
Example test_const_regex :
  classify 3 (Some constRegex_fillArgument) (constRegex defaultOptions)
  = Return {| isReference := false; typeLabel := "" |}.
Proof. reflexivity. Qed.

(** ** Further properties of the classifier *)

(** X1. A node that is no literal, template literal or identifier, no call of
    [Symbol], no function and no [new RegExp(...)] is a reference type under
    every configuration and in every scope: objects, arrays, classes, other
    constructions and other calls. *)
Theorem other_shapes_are_reference_type (fuel : nat) (context : RuleContext.t)
    (node : Node) :
  (forall range raw regex, node <> Literal range raw regex) ->
  (forall range expressions, node <> TemplateLiteral range expressions) ->
  (forall range name, node <> Identifier range name) ->
  isSymbolCall node = false ->
  isFunction node = false ->
  isNewRegexp node = false ->
  isReferenceType (S fuel) (Some node) context = Return true.
Proof.
  intros Hl Ht Hi Hs Hf Hn.
  destruct node;
    try (exfalso;
         first [eapply Hl; reflexivity | eapply Ht; reflexivity
               | eapply Hi; reflexivity]);
    cbn -[isSymbolCall isFunction isNewRegexp];
    rewrite Hs, Hf, Hn, !andb_false_r; reflexivity.
Qed.

Lemma other_shapes_are_reference_type_witness :
  isReferenceType 1 (Some newMap_fillArgument) (constObject allOff)
  = Return true.
Proof.
  apply (other_shapes_are_reference_type 0 (constObject allOff)
           newMap_fillArgument);
    try reflexivity; intros; discriminate.
Defined.

(** X2. An identifier whose variable is first defined by a declarator of a
    declaration of any kind but [let] ([var], [const], [using]) gets exactly
    the outcome of its initializer. *)
Theorem declarator_is_classified_from_initializer (fuel : nat)
    (context : RuleContext.t) (range : Range) (name : string) (v : Var.t)
    (d : Def.t) (rest : list Def.t) (range' : Range) (id : Node)
    (init : option Node) (kind : string) :
  findVariable (Identifier range name) context = Some v ->
  Var.defs v = d :: rest ->
  Def.node d = Some (VariableDeclarator range' id init kind) ->
  kind <> "let" ->
  isReferenceType (S (S fuel)) (Some (Identifier range name)) context
  = isReferenceType fuel init context.
Proof.
  intros Hv Hd Hn Hk. resolve_with Hv Hd Hn.
  destruct (String.eqb_spec kind "let") as [E|_]; [contradiction|].
  reflexivity.
Qed.

Lemma declarator_is_classified_from_initializer_witness :
  isReferenceType 3 (Some varObject_fillArgument) varObject
  = isReferenceType 1 (Some (ObjectExpression (8, 10))) varObject.
Proof.
  apply (declarator_is_classified_from_initializer 1 varObject (30, 31) "p"
           (definedBy "p" varObject_declarator)
           (Def.mk (Some varObject_declarator)) []
           (4, 10) (Identifier (4, 5) "p")
           (Some (ObjectExpression (8, 10))) "var");
    try reflexivity.
  discriminate.
Defined.

(** X3. An identifier whose variable is first defined by a declarator without
    initializer is a value type, whatever the kind of the declaration. *)
Theorem declarator_without_initializer_is_value_type (fuel : nat)
    (context : RuleContext.t) (range : Range) (name : string) (v : Var.t)
    (d : Def.t) (rest : list Def.t) (range' : Range) (id : Node)
    (kind : string) :
  findVariable (Identifier range name) context = Some v ->
  Var.defs v = d :: rest ->
  Def.node d = Some (VariableDeclarator range' id None kind) ->
  isReferenceType (S (S (S fuel))) (Some (Identifier range name)) context
  = Return false.
Proof.
  intros Hv Hd Hn. resolve_with Hv Hd Hn.
  destruct (String.eqb kind "let"); reflexivity.
Qed.

Lemma declarator_without_initializer_is_value_type_witness :
  isReferenceType 3 (Some noInit_fillArgument) noInit = Return false.
Proof.
  apply (declarator_without_initializer_is_value_type 0 noInit (25, 26) "x"
           (definedBy "x" noInit_declarator)
           (Def.mk (Some noInit_declarator)) []
           (4, 5) (Identifier (4, 5) "x") "var");
    reflexivity.
Defined.

(** X4. An identifier whose variable is first defined by a function (the name
    of a function declaration, or a parameter, whose defining node is its
    function) is a value type when the options given to the rule set
    [canFillWithFunction] to true or leave it out, and a reference type when
    they set it to false, whatever value the identifier holds. *)
Theorem function_binding_follows_canFillWithFunction (fuel : nat)
    (options : list UserOptions.t) (sourceCode : SourceCode.t)
    (range : Range) (name : string) (v : Var.t) (d : Def.t)
    (rest : list Def.t) (definitionNode : Node) :
  findVariable (Identifier range name) (RuleContext.mk options sourceCode)
  = Some v ->
  Var.defs v = d :: rest ->
  Def.node d = Some definitionNode ->
  isFunction definitionNode = true ->
  isReferenceType (S (S (S fuel))) (Some (Identifier range name))
    (RuleContext.mk options sourceCode)
  = Return
      match options with
      | o :: _ =>
          match UserOptions.canFillWithFunction o with
          | Some false => true
          | Some true | None => false
          end
      | [] => false
      end.
Proof.
  intros Hv Hd Hn Hf.
  destruct definitionNode; try discriminate Hf;
    resolve_with Hv Hd Hn;
    destruct options as [|[[[|]|] [[|]|]] others]; reflexivity.
Qed.

Lemma function_binding_follows_canFillWithFunction_witness :
  isReferenceType 3 (Some parameter_fillArgument) (parameter functionOff)
  = Return true.
Proof.
  apply (function_binding_follows_canFillWithFunction 0 functionOff
           (RuleContext.sourceCode (parameter functionOff)) (41, 42) "x"
           (definedBy "x" parameter_f) (Def.mk (Some parameter_f)) []
           parameter_f);
    reflexivity.
Defined.

(** By default the parameter is a value type. *)
Example parameter_by_default :
  isReferenceType 3 (Some parameter_fillArgument) (parameter defaultOptions)
  = Return false.
Proof. reflexivity. Qed.

(** X5. The boolean verdict reads the context only through the resolved
    options and the variable lists of the scopes: the source text and the
    enclosing scopes play no part. *)
Theorem verdict_reads_options_and_variables (fuel : nat)
    (context1 context2 : RuleContext.t) :
  getOptions context1 = getOptions context2 ->
  (forall n,
     Scope.variables
       (SourceCode.getScope (RuleContext.sourceCode context1) n)
     = Scope.variables
         (SourceCode.getScope (RuleContext.sourceCode context2) n)) ->
  forall node,
    isReferenceType fuel node context1 = isReferenceType fuel node context2.
Proof.
  intros Ho Hs.
  assert (Hres : forall n, resolve n context1 = resolve n context2).
  { intros n. unfold resolve, findVariable. rewrite Hs. reflexivity. }
  assert (H : forall f,
    (forall node,
       isReferenceType f node context1 = isReferenceType f node context2)
    /\ (forall n,
          isIdentifierReferenceType f n context1
          = isIdentifierReferenceType f n context2)).
  { induction f as [|f [IHr IHi]]; [split; reflexivity|].
    split.
    - intros [n|]; [|reflexivity].
      destruct n; simpl; rewrite ?Ho, ?Hs; try reflexivity.
      apply IHi.
    - intros n. rewrite !isIdentifierReferenceType_resolve, Hres.
      destruct (resolve n context2); try reflexivity. apply IHr. }
  apply H.
Qed.

Lemma verdict_reads_options_and_variables_witness :
  isReferenceType 3 (Some constObject_fillArgument)
    (constObject defaultOptions)
  = isReferenceType 3 (Some constObject_fillArgument)
      (RuleContext.mk []
         (SourceCode.mk
            (fun _ =>
               Scope.mk [definedBy "p" constObject_declarator]
                 (Some (topLevel [])))
            (fun _ => ""))).
Proof.
  apply (verdict_reads_options_and_variables 3 (constObject defaultOptions));
    reflexivity.
Defined.

(** X6. When the resolution of identifiers leads from a node to an identifier
    that leads back to itself, in one step or more, the classification of the
    node never comes to an end. *)
Theorem cyclic_binding_diverges (context : RuleContext.t) (node : Node)
    (range : Range) (name : string) (next : Node) :
  reaches context node (Identifier range name) ->
  resolve (Identifier range name) context = Reclassify (Some next) ->
  reaches context next (Identifier range name) ->
  diverges (Some node) context.
Proof.
  intros Hto Hstep Hback.
  assert (H : forall fuel,
    (forall m, reaches context m (Identifier range name) ->
       isReferenceType fuel (Some m) context = OutOfFuel)
    /\ (forall m, reaches context m (Identifier range name) ->
          isReferenceType (S fuel) (Some m) context = OutOfFuel)).
  { induction fuel as [|fuel [IH0 IH1]].
    - split; intros m Hm; [reflexivity|].
      inversion Hm; subst; reflexivity.
    - split; [exact IH1|].
      intros m Hm. inversion Hm as [|r n t k Hres Hrest]; subst.
      + rewrite isReferenceType_Identifier, Hstep. apply IH0. exact Hback.
      + rewrite isReferenceType_Identifier, Hres. apply IH0. exact Hrest. }
  intros fuel. apply (proj1 (H fuel)). exact Hto.
Qed.

Lemma cyclic_binding_diverges_witness :
  diverges (Some mutual_fillArgument) mutual.
Proof.
  apply (cyclic_binding_diverges mutual mutual_fillArgument
           (10, 11) "b" (Identifier (23, 24) "a")).
  - apply (reaches_step mutual (44, 45) "a" (Identifier (10, 11) "b"));
      [reflexivity | constructor].
  - reflexivity.
  - apply (reaches_step mutual (23, 24) "a" (Identifier (10, 11) "b"));
      [reflexivity | constructor].
Defined.

(** ** Labels of constructions *)

(** The characters matched by [\s] in ECMAScript are recognised, each with
    the length of its encoding; U+0085, U+180E, U+200B and U+2060 are not
    among them. *)
Example whiteSpace_characters :
  map (fun s => whiteSpaceWidth (s ++ "x"))
    [String "009" ""; String "010" ""; String "011" ""; String "012" "";
     String "013" ""; " ";
     String "194" (String "160" "");
     String "225" (String "154" (String "128" ""));
     String "226" (String "128" (String "128" ""));
     String "226" (String "128" (String "133" ""));
     String "226" (String "128" (String "138" ""));
     String "226" (String "128" (String "168" ""));
     String "226" (String "128" (String "169" ""));
     String "226" (String "128" (String "175" ""));
     String "226" (String "129" (String "159" ""));
     String "227" (String "128" (String "128" ""));
     String "239" (String "187" (String "191" ""))]
  = [1; 1; 1; 1; 1; 1; 2; 3; 3; 3; 3; 3; 3; 3; 3; 3; 3]
  /\ map (fun s => whiteSpaceWidth (s ++ "x"))
       [String "194" (String "133" "");
        String "225" (String "160" (String "142" ""));
        String "226" (String "128" (String "139" ""));
        String "226" (String "129" (String "160" ""))]
     = [0; 0; 0; 0].
Proof. split; reflexivity. Qed.

(** [new A.B()] written with a no-break space (U+00A0) before the dot: the
    label stops at the no-break space. *)
Example no_break_space_label :
  getNewExpressionType
    (NewExpression (0, 10)
       (MemberExpression (4, 8) (Identifier (4, 5) "A")
          (Identifier (7, 8) "B"))
       [])
    (RuleContext.mk []
       (SourceCode.mk (fun _ => topLevel [])
          (fun _ => "A" ++ String "194" (String "160" ".B"))))
  = "new A".
Proof. reflexivity. Qed.

Lemma width_continuation (a : ascii) (rest : string) :
  isContinuation a = true -> whiteSpaceWidth (String a rest) = 0.
Proof.
  intros H. destruct a as [b0 b1 b2 b3 b4 b5 b6 b7].
  destruct b0, b1, b2, b3, b4, b5, b6, b7; try discriminate H;
    destruct rest as [|b [|c rest]]; reflexivity.
Qed.

(** A whitespace character at the start of a string is still there when
    the string is extended. *)
Lemma width_extend (p q : string) :
  whiteSpaceWidth p <> 0 -> whiteSpaceWidth (p ++ q) = whiteSpaceWidth p.
Proof.
  destruct p as [|a [|b [|c rest]]]; simpl; intros H.
  - contradiction.
  - destruct (isWhiteSpace a); [reflexivity | contradiction].
  - destruct (isWhiteSpace a); [reflexivity|].
    destruct (isWhiteSpace2 a b); [reflexivity | contradiction].
  - reflexivity.
Qed.

Lemma width_prefix (p q : string) :
  whiteSpaceWidth (p ++ q) = 0 -> whiteSpaceWidth p = 0.
Proof.
  intros H. destruct (Nat.eq_dec (whiteSpaceWidth p) 0) as [E|E]; [exact E|].
  rewrite (width_extend p q E) in H. contradiction.
Qed.

Lemma contains_false (c : ascii) (rest : string) :
  containsWhiteSpace (String c rest) = false <->
  whiteSpaceWidth (String c rest) = 0 /\ containsWhiteSpace rest = false.
Proof.
  change (containsWhiteSpace (String c rest))
    with (negb (Nat.eqb (whiteSpaceWidth (String c rest)) 0)
          || containsWhiteSpace rest).
  rewrite orb_false_iff, negb_false_iff, Nat.eqb_eq. reflexivity.
Qed.

Lemma takeNonWhiteSpace_prefix (s : string) :
  exists q, s = takeNonWhiteSpace s ++ q.
Proof.
  induction s as [|c rest [q IH]]; [exists ""; reflexivity|].
  change (takeNonWhiteSpace (String c rest))
    with (match whiteSpaceWidth (String c rest) with
          | O => String c (takeNonWhiteSpace rest)
          | S _ => EmptyString
          end).
  destruct (whiteSpaceWidth (String c rest)).
  - exists q. simpl. rewrite <- IH. reflexivity.
  - exists (String c rest). reflexivity.
Qed.

Lemma takeNonWhiteSpace_contains (s : string) :
  containsWhiteSpace (takeNonWhiteSpace s) = false.
Proof.
  induction s as [|c rest IH]; [reflexivity|].
  change (takeNonWhiteSpace (String c rest))
    with (match whiteSpaceWidth (String c rest) with
          | O => String c (takeNonWhiteSpace rest)
          | S _ => EmptyString
          end).
  destruct (whiteSpaceWidth (String c rest)) eqn:E; [|reflexivity].
  apply contains_false. split; [|exact IH].
  destruct (takeNonWhiteSpace_prefix rest) as [q Hq].
  apply (width_prefix _ q). simpl. rewrite <- Hq. exact E.
Qed.

(** The two last bytes of a high surrogate are bytes inside an encoding. *)
Lemma continuation_byte (n : nat) :
  128 <= n < 192 -> isContinuation (ascii_of_nat n) = true.
Proof.
  intros [Hl Hu]. unfold isContinuation.
  rewrite nat_ascii_embedding by lia.
  apply andb_true_iff. split; [apply Nat.leb_le | apply Nat.ltb_lt]; lia.
Qed.

Lemma highSurrogate_bytes (b0 b1 b2 : ascii) :
  exists x y,
    highSurrogate b0 b1 b2 = String "237" (String x (String y ""))
    /\ isContinuation x = true /\ isContinuation y = true.
Proof.
  unfold highSurrogate. eexists. eexists. split; [reflexivity|].
  split; apply continuation_byte.
  - pose proof (Nat.mod_upper_bound
                  ((nat_of_ascii b0 mod 8) * 4
                   + (nat_of_ascii b1 / 16) mod 4 - 1) 16).
    lia.
  - pose proof (Nat.mod_upper_bound (nat_of_ascii b1) 16).
    pose proof (Nat.mod_upper_bound (nat_of_ascii b2 / 16) 4).
    lia.
Qed.

Lemma unitsAt_continuation (c : ascii) :
  isContinuation c = true -> unitsAt c = 0.
Proof. intros H. unfold unitsAt. rewrite H. reflexivity. Qed.

Lemma highSurrogate_codeUnits (b0 b1 b2 : ascii) :
  codeUnits (highSurrogate b0 b1 b2) = 1.
Proof.
  destruct (highSurrogate_bytes b0 b1 b2) as [x [y [-> [Hx Hy]]]].
  simpl. rewrite (unitsAt_continuation x Hx), (unitsAt_continuation y Hy).
  reflexivity.
Qed.

Lemma highSurrogate_contains (b0 b1 b2 : ascii) :
  containsWhiteSpace (highSurrogate b0 b1 b2) = false.
Proof.
  destruct (highSurrogate_bytes b0 b1 b2) as [x [y [-> [Hx Hy]]]].
  apply contains_false. split; [reflexivity|].
  apply contains_false. split; [apply width_continuation; exact Hx|].
  apply contains_false. split; [apply width_continuation; exact Hy|].
  reflexivity.
Qed.

(** No whitespace character begins in [p] and ends in a high surrogate put
    after [p] in the place of other bytes. *)
Lemma width_before_surrogate (a : ascii) (p rest : string) (x y : ascii) :
  whiteSpaceWidth (String a p ++ rest) = 0 ->
  whiteSpaceWidth (String a p ++ String "237" (String x (String y ""))) = 0.
Proof.
  destruct p as [|d [|e p]]; simpl.
  - destruct (isWhiteSpace a); [discriminate|]. intros _.
    unfold isWhiteSpace2, isWhiteSpace3. cbn.
    rewrite !andb_false_r. reflexivity.
  - destruct (isWhiteSpace a); [discriminate|].
    destruct (isWhiteSpace2 a d); [discriminate|]. intros _.
    unfold isWhiteSpace3. cbn. rewrite !andb_false_r. reflexivity.
  - intros H. exact H.
Qed.

(** What [takeCodeUnits] returns: a prefix of the string, or a prefix followed
    by the high surrogate of the character cut in two. *)
Lemma takeCodeUnits_shape (s : string) : forall n,
  (exists q, s = takeCodeUnits n s ++ q)
  \/ (exists p l b1 b2 q,
        s = p ++ String l (String b1 (String b2 q))
        /\ takeCodeUnits n s = p ++ highSurrogate l b1 b2).
Proof.
  induction s as [|c rest IH]; intros n; [left; exists ""; reflexivity|].
  assert (Hcons : forall k,
    (exists q, String c rest = String c (takeCodeUnits k rest) ++ q)
    \/ (exists p l b1 b2 q,
          String c rest = p ++ String l (String b1 (String b2 q))
          /\ String c (takeCodeUnits k rest) = p ++ highSurrogate l b1 b2)).
  { intros k. destruct (IH k) as [[q Hq]|[p [l [b1 [b2 [q [Hs Ht]]]]]]].
    - left. exists q. simpl. rewrite <- Hq. reflexivity.
    - right. exists (String c p), l, b1, b2, q. simpl.
      rewrite <- Hs, Ht. split; reflexivity. }
  simpl. destruct (unitsAt c) as [|[|u]].
  - apply Hcons.
  - destruct n as [|n]; [left; exists (String c rest); reflexivity|].
    apply Hcons.
  - destruct n as [|[|n]].
    + left. exists (String c rest). reflexivity.
    + destruct rest as [|b1 [|b2 [|b3 rest]]];
        try (left; eexists; reflexivity).
      right. exists "", c, b1, b2, (String b3 rest). split; reflexivity.
    + apply Hcons.
Qed.

Lemma takeCodeUnits_contains (s : string) : forall n,
  containsWhiteSpace s = false ->
  containsWhiteSpace (takeCodeUnits n s) = false.
Proof.
  induction s as [|c rest IH]; intros n H; [reflexivity|].
  apply contains_false in H. destruct H as [Hw Hrest].
  assert (Hcons : forall k,
    containsWhiteSpace (String c (takeCodeUnits k rest)) = false).
  { intros k. apply contains_false. split; [|apply IH; exact Hrest].
    destruct (takeCodeUnits_shape rest k)
      as [[q Hq]|[p [l [b1 [b2 [q [Hs Ht]]]]]]].
    - apply (width_prefix _ q). simpl. rewrite <- Hq. exact Hw.
    - rewrite Ht.
      destruct (highSurrogate_bytes l b1 b2) as [x [y [-> _]]].
      apply (width_before_surrogate c p (String l (String b1 (String b2 q)))).
      simpl. rewrite <- Hs. exact Hw. }
  simpl. destruct (unitsAt c) as [|[|u]].
  - apply Hcons.
  - destruct n as [|n]; [reflexivity | apply Hcons].
  - destruct n as [|[|n]]; [reflexivity | | apply Hcons].
    destruct rest as [|b1 [|b2 [|b3 rest]]]; try reflexivity.
    apply highSurrogate_contains.
Qed.

Lemma unitsAt_bound (c : ascii) : unitsAt c <= 2.
Proof.
  unfold unitsAt. destruct (isContinuation c); [lia|].
  destruct (Nat.leb 240 (nat_of_ascii c)); lia.
Qed.

Lemma takeCodeUnits_codeUnits (s : string) : forall n,
  codeUnits (takeCodeUnits n s) <= n.
Proof.
  induction s as [|c rest IH]; intros n; [apply Nat.le_0_l|].
  assert (Hcons : forall k, unitsAt c + k <= n ->
            codeUnits (String c (takeCodeUnits k rest)) <= n).
  { intros k Hk. cbn [codeUnits]. pose proof (IH k). lia. }
  cbn [takeCodeUnits]. destruct (unitsAt c) as [|[|u]] eqn:E.
  - apply Hcons. lia.
  - destruct n as [|n]; [apply Nat.le_0_l|]. apply Hcons. lia.
  - pose proof (unitsAt_bound c) as Hb.
    destruct n as [|[|n]]; [apply Nat.le_0_l | |].
    + destruct rest as [|b1 [|b2 [|b3 rest]]]; try apply Nat.le_0_l.
      rewrite highSurrogate_codeUnits. apply Nat.le_refl.
    + apply Hcons. lia.
Qed.

Lemma takeCodeUnits_not_empty (n : nat) (c : ascii) (rest : string) :
  takeCodeUnits (S (S n)) (String c rest) <> "".
Proof.
  simpl. destruct (unitsAt c) as [|[|u]]; discriminate.
Qed.

(** X7. The label of a construction whose callee has no name, as in
    [new A.B()] or [new class {}], is [new ] followed by a non-empty word of at
    most 32 code units in which no character is matched by [\s], whatever
    the source text of the callee is. *)
Theorem unnamed_callee_label (range : Range) (callee : Node)
    (arguments : list Node) (context : RuleContext.t) :
  node_name callee = None ->
  exists word,
    getNewExpressionType (NewExpression range callee arguments) context
    = "new " ++ word
    /\ word <> ""
    /\ codeUnits word <= 32
    /\ containsWhiteSpace word = false.
Proof.
  intros Hn. unfold getNewExpressionType. simpl. rewrite Hn.
  unfold matchNonWhiteSpace.
  pose proof (takeNonWhiteSpace_contains
                (dropWhiteSpace
                   (firstLine
                      (SourceCode.getText (RuleContext.sourceCode context)
                         (Some callee))))) as Hw.
  destruct (takeNonWhiteSpace _) as [|c rest].
  - exists "()". repeat split; [discriminate | simpl; lia].
  - exists (takeCodeUnits 32 (String c rest)). split; [reflexivity|].
    split; [apply takeCodeUnits_not_empty|].
    split; [apply takeCodeUnits_codeUnits|].
    apply takeCodeUnits_contains. exact Hw.
Qed.

Lemma unnamed_callee_label_witness :
  exists word,
    getNewExpressionType anonymous_fillArgument anonymous = "new " ++ word
    /\ word <> ""
    /\ codeUnits word <= 32
    /\ containsWhiteSpace word = false.
Proof.
  apply (unnamed_callee_label (18, 30) anonymous_callee [] anonymous).
  reflexivity.
Defined.

(** The label of [new class {}] is [new class]. *)
Example anonymous_label :
  getType anonymous_fillArgument anonymous = "new class".
Proof. reflexivity. Qed.

(** ** The listener *)

Lemma listener_skips (fuel : nat) (node : Node) (context : RuleContext.t) :
  isArrayFill node context = false ->
  CallExpression_listener fuel node context = Return None.
Proof.
  intros H. destruct node; try reflexivity.
  destruct node; try reflexivity.
  unfold CallExpression_listener. unfold isArrayFill in H.
  rewrite H. reflexivity.
Qed.

Lemma listener_runs (fuel : nat) (node : Node) (context : RuleContext.t) :
  isArrayFill node context = true ->
  CallExpression_listener fuel node context
  = (verdict <- classify fuel (firstArgument node) context ;;
     match isReference verdict, firstArgument node with
     | true, Some fillArgument =>
         Return (Some
           {| problem_node := fillArgument;
              messageId := MESSAGE_ID_ERROR;
              data_actual :=
                if String.eqb
                     (SourceCode.getText (RuleContext.sourceCode context)
                        (receiverCallee node))
                     "Array.from"
                then "Array.from().fill()"
                else "Array.fill()";
              data_type :=
                match typeLabel verdict with
                | EmptyString => ""
                | _ => " (" ++ typeLabel verdict ++ ")"
                end |})
     | _, _ => Return None
     end).
Proof.
  intros H. destruct node; try discriminate H.
  destruct node; try discriminate H.
  unfold CallExpression_listener. unfold isArrayFill in H.
  rewrite H. reflexivity.
Qed.

(** X8. The listener reports a call exactly when the call has the shape of
    an array fill and the classification of its first argument returns
    reference type; a call of another shape, a value type argument and an
    unfinished classification give no report. *)
Theorem listener_reports_iff (fuel : nat) (node : Node)
    (context : RuleContext.t) :
  (exists problem,
     CallExpression_listener fuel node context = Return (Some problem))
  <-> isArrayFill node context = true
      /\ isReferenceType fuel (firstArgument node) context = Return true.
Proof.
  destruct (isArrayFill node context) eqn:Hshape.
  - rewrite (listener_runs fuel node context Hshape). unfold classify.
    destruct (isReferenceType fuel (firstArgument node) context)
      as [[|]| |] eqn:Hr; simpl.
    + destruct (firstArgument node) as [fillArgument|] eqn:Hf; simpl.
      * split; [intros _; split; reflexivity | intros _; eexists; reflexivity].
      * exfalso. destruct fuel; simpl in Hr; discriminate.
    + split; [intros [p Hp]; discriminate | intros [_ H]; discriminate].
    + split; [intros [p Hp]; discriminate | intros [_ H]; discriminate].
    + split; [intros [p Hp]; discriminate | intros [_ H]; discriminate].
  - rewrite (listener_skips fuel node context Hshape).
    split; [intros [p Hp]; discriminate | intros [H _]; discriminate].
Qed.

(** X9. A report points at the first argument of the call, carries the
    message id of the rule, names one of the two call shapes and has as type
    either nothing or the label of the argument between parentheses. *)
Theorem report_content (fuel : nat) (node : Node) (context : RuleContext.t)
    (problem : Problem) :
  CallExpression_listener fuel node context = Return (Some problem) ->
  firstArgument node = Some (problem_node problem)
  /\ messageId problem = MESSAGE_ID_ERROR
  /\ (data_actual problem = "Array.fill()"
      \/ data_actual problem = "Array.from().fill()")
  /\ (getType (problem_node problem) context = ""
      /\ data_type problem = ""
      \/ getType (problem_node problem) context <> ""
         /\ data_type problem
            = " (" ++ getType (problem_node problem) context ++ ")").
Proof.
  intros H.
  destruct (isArrayFill node context) eqn:Hshape;
    [|rewrite (listener_skips fuel node context Hshape) in H; discriminate].
  rewrite (listener_runs fuel node context Hshape) in H. unfold classify in H.
  destruct (isReferenceType fuel (firstArgument node) context)
    as [[|]| |]; simpl in H; try discriminate.
  destruct (firstArgument node) as [fillArgument|]; simpl in H;
    [|discriminate].
  injection H as <-. simpl. repeat split.
  - destruct (String.eqb _ "Array.from"); [right | left]; reflexivity.
  - destruct (getType fillArgument context) eqn:E.
    + left. split; reflexivity.
    + right. split; [discriminate | reflexivity].
Qed.

Lemma report_content_witness :
  firstArgument constObject_call = Some constObject_fillArgument
  /\ MESSAGE_ID_ERROR = MESSAGE_ID_ERROR
  /\ ("Array.fill()" = "Array.fill()"
      \/ "Array.fill()" = "Array.from().fill()")
  /\ (getType constObject_fillArgument (constObject defaultOptions) = ""
      /\ " (variable (p))" = ""
      \/ getType constObject_fillArgument (constObject defaultOptions) <> ""
         /\ " (variable (p))"
            = " (" ++ getType constObject_fillArgument
                        (constObject defaultOptions) ++ ")").
Proof.
  apply (report_content 3 constObject_call (constObject defaultOptions)
           {| problem_node := constObject_fillArgument;
              messageId := MESSAGE_ID_ERROR;
              data_actual := "Array.fill()";
              data_type := " (variable (p))" |}).
  reflexivity.
Defined.

(** X10. A call without argument is never reported, and its receiver is not
    even classified: the listener returns at once, whatever the budget. *)
Theorem call_without_argument_is_skipped (fuel : nat) (range : Range)
    (callee : Node) (context : RuleContext.t) :
  CallExpression_listener fuel (CallExpression range callee []) context
  = Return None.
Proof.
  apply listener_skips. destruct callee; try reflexivity.
  simpl. rewrite andb_false_r. reflexivity.
Qed.

(** X11. A call [x.fill(...)] whose receiver is no call and no construction,
    such as an identifier or an array literal, is never reported, unless the
    whole source text is [Array.from]. *)
Theorem fill_on_plain_receiver_is_skipped (fuel : nat)
    (range range' : Range) (object property : Node) (arguments : list Node)
    (context : RuleContext.t) :
  node_callee object = None ->
  SourceCode.getText (RuleContext.sourceCode context) None <> "Array.from" ->
  CallExpression_listener fuel
    (CallExpression range (MemberExpression range' object property) arguments)
    context
  = Return None.
Proof.
  intros Hc Ht. apply listener_skips. simpl. rewrite Hc. simpl.
  destruct (String.eqb_spec
              (SourceCode.getText (RuleContext.sourceCode context) None)
              "Array.from") as [E|_]; [contradiction|].
  reflexivity.
Qed.

Lemma fill_on_plain_receiver_is_skipped_witness :
  CallExpression_listener 3 plain_call plain = Return None.
Proof.
  apply (fill_on_plain_receiver_is_skipped 3 (0, 13) (0, 9)
           (Identifier (0, 4) "list") (Identifier (5, 9) "fill")
           [ObjectExpression (10, 12)] plain).
  - reflexivity.
  - discriminate.
Defined.

(** X12. Only the first argument of the call counts: further arguments,
    such as the bounds of [fill(value, start, end)], change nothing. *)
Theorem only_first_argument_counts (fuel : nat) (range : Range)
    (callee fillArgument : Node) (others : list Node)
    (context : RuleContext.t) :
  CallExpression_listener fuel
    (CallExpression range callee (fillArgument :: others)) context
  = CallExpression_listener fuel
      (CallExpression range callee [fillArgument]) context.
Proof. destruct callee; reflexivity. Qed.

(** X13. The listener catches nothing: when the call has the shape of an
    array fill and the classification of its first argument raises an error,
    the listener raises that error. *)
Theorem listener_raises_with_classifier (fuel : nat) (node : Node)
    (context : RuleContext.t) (e : Error) :
  isArrayFill node context = true ->
  isReferenceType fuel (firstArgument node) context = Throw e ->
  CallExpression_listener fuel node context = Throw e.
Proof.
  intros Hshape Hr. rewrite (listener_runs fuel node context Hshape).
  unfold classify. rewrite Hr. reflexivity.
Qed.

Lemma listener_raises_with_classifier_witness :
  CallExpression_listener 2 insideFunction_call insideFunction
  = Throw readNodeOfUndefined.
Proof.
  apply (listener_raises_with_classifier 2 insideFunction_call
           insideFunction readNodeOfUndefined);
    reflexivity.
Defined.

(** What a report tells about the classification. *)
Lemma report_content_first (fuel : nat) (node : Node)
    (context : RuleContext.t) (problem : Problem) :
  CallExpression_listener fuel node context = Return (Some problem) ->
  firstArgument node = Some (problem_node problem)
  /\ isReferenceType fuel (firstArgument node) context = Return true.
Proof.
  intros H.
  destruct (isArrayFill node context) eqn:Hshape;
    [|rewrite (listener_skips fuel node context Hshape) in H; discriminate].
  rewrite (listener_runs fuel node context Hshape) in H. unfold classify in H.
  destruct (isReferenceType fuel (firstArgument node) context)
    as [[|]| |]; simpl in H; try discriminate.
  destruct (firstArgument node) as [fillArgument|]; simpl in H;
    [|discriminate].
  injection H as <-. split; reflexivity.
Qed.

(** ** When the classifier raises *)

Lemma reaches_no_definition_throws (context : RuleContext.t) (node : Node)
    (range : Range) (name : string) :
  reaches context node (Identifier range name) ->
  resolve (Identifier range name) context = NoDefinition ->
  throws (Some node) context readNodeOfUndefined.
Proof.
  intros Hreach.
  remember (Identifier range name) as last eqn:El in Hreach.
  revert El.
  induction Hreach as [n|r nm target n Hstep Hrest IH]; intros El Hres.
  - subst n. exists 2. rewrite isReferenceType_Identifier, Hres. reflexivity.
  - destruct (IH El Hres) as [fuel Hf].
    exists (S (S fuel)). rewrite isReferenceType_Identifier, Hstep. exact Hf.
Qed.

Lemma throw_reaches_no_definition (context : RuleContext.t) (fuel : nat) :
  forall node e,
    isReferenceType fuel (Some node) context = Throw e ->
    e = readNodeOfUndefined
    /\ exists range name,
         reaches context node (Identifier range name)
         /\ resolve (Identifier range name) context = NoDefinition.
Proof.
  induction fuel as [fuel IH] using lt_wf_ind. intros node e H.
  destruct fuel as [|fuel]; [discriminate H|].
  assert (Hdirect : (forall range name, node <> Identifier range name) ->
                    False).
  { intros Hid. destruct (direct_verdict node context Hid) as [b Hb].
    rewrite (fuel_monotone 1 (S fuel) (Some node) context (Return b)) in H;
      [discriminate | lia | exact Hb | discriminate]. }
  destruct node; try (exfalso; apply Hdirect; intros; discriminate).
  destruct fuel as [|fuel]; [discriminate H|].
  rewrite isReferenceType_Identifier in H.
  destruct (resolve (Identifier range name) context)
    as [| | |[target|]] eqn:E; try discriminate H.
  - injection H as <-. split; [reflexivity|].
    exists range, name. split; [constructor | exact E].
  - destruct (IH fuel ltac:(lia) target e H) as [He [r [nm [Hr Hn]]]].
    split; [exact He|]. exists r, nm. split; [|exact Hn].
    eapply reaches_step; eauto.
  - destruct fuel; discriminate H.
Qed.

(** X14. The classification of a node raises an error exactly when the
    resolution of identifiers reaches, from the node, an identifier whose
    variable has an empty list of definitions; the error is then the
    [TypeError] of reading [node] of [undefined], and no other error is ever
    raised. *)
Theorem throws_iff_no_definition (context : RuleContext.t) (node : Node)
    (e : Error) :
  throws (Some node) context e
  <-> e = readNodeOfUndefined
      /\ exists range name,
           reaches context node (Identifier range name)
           /\ resolve (Identifier range name) context = NoDefinition.
Proof.
  split.
  - intros [fuel H]. exact (throw_reaches_no_definition context fuel node e H).
  - intros [-> [range [name [Hr Hn]]]].
    exact (reaches_no_definition_throws context node range name Hr Hn).
Qed.

(** ** The rule of [src/unnamed/part_000] and the rule of [rules/] *)

Lemma part000_Identifier (fuel : nat) (range : Range) (name : string)
    (context : RuleContext.t) :
  Part000.isReferenceType (S fuel) (Some (Identifier range name)) context =
  match findVariable (Identifier range name) context with
  | None => Return false
  | Some v =>
      match Var.defs v with
      | [] => Throw readNodeOfUndefined
      | d :: _ =>
          match Def.node d with
          | None => Return false
          | Some definitionNode =>
              Part000.isReferenceType fuel (Some definitionNode) context
          end
      end
  end.
Proof.
  unfold findVariable. simpl.
  destruct (find _ _) as [v|]; simpl; [|reflexivity].
  destruct (Var.defs v) as [|d rest]; reflexivity.
Qed.

Lemma part000_fuel_step (fuel : nat) :
  forall node context b,
    Part000.isReferenceType fuel node context = Return b ->
    Part000.isReferenceType (S fuel) node context = Return b.
Proof.
  induction fuel as [|fuel IH]; intros node context b H; [discriminate H|].
  destruct node as [node|]; [|exact H].
  destruct node; try exact H.
  rewrite part000_Identifier. rewrite part000_Identifier in H.
  destruct (findVariable _ _) as [v|]; [|exact H].
  destruct (Var.defs v) as [|d rest]; [exact H|].
  destruct (Def.node d) as [definitionNode|]; [|exact H].
  apply IH. exact H.
Qed.

Lemma part000_declarator (fuel : nat) (range : Range) (id : Node)
    (init : option Node) (kind : string) (context : RuleContext.t) :
  Part000.isReferenceType (S fuel)
    (Some (VariableDeclarator range id init kind)) context
  = Return true.
Proof. reflexivity. Qed.

Lemma part000_flags_more (fuel : nat)
    (context : RuleContext.t) :
  forall node,
    isReferenceType fuel node context = Return true ->
    Part000.isReferenceType fuel node context = Return true.
Proof.
  induction fuel as [fuel IH] using lt_wf_ind. intros node H.
  destruct fuel as [|fuel]; [discriminate H|].
  destruct node as [node|]; [|discriminate H].
  destruct node; try (simpl; reflexivity); try discriminate H.
  - (* Literal *)
    simpl in H. simpl. destruct regex; [reflexivity|].
    rewrite andb_false_r in H. discriminate H.
  - (* Identifier *)
    destruct fuel as [|fuel]; [discriminate H|].
    rewrite isReferenceType_Identifier in H. unfold resolve in H.
    rewrite part000_Identifier.
    destruct (findVariable _ _) as [v|]; [|discriminate H].
    destruct (Var.defs v) as [|d rest]; [discriminate H|].
    destruct (Def.node d) as [definitionNode|]; [|discriminate H].
    destruct definitionNode;
      try (apply part000_fuel_step; apply IH; [lia | exact H]).
    apply part000_declarator.
  - (* CallExpression *)
    simpl in H. simpl.
    destruct (_ && noVariables _)%bool; [discriminate H | reflexivity].
Qed.

(** X15. Whatever the rule of [rules/] classifies as a reference type, under
    any configuration, the rule of [src/unnamed/part_000] classifies as a
    reference type too, with the same budget. *)
Theorem part000_flags_at_least_as_much (fuel : nat)
    (context : RuleContext.t) (node : option Node) :
  isReferenceType fuel node context = Return true ->
  Part000.isReferenceType fuel node context = Return true.
Proof. apply part000_flags_more. Qed.

(** X16. In the rule of [src/unnamed/part_000] every identifier whose
    variable is first defined by a declarator is a reference type, whatever
    the kind of the declaration and the initializer are. *)
Theorem part000_declared_identifier_is_reference_type (fuel : nat)
    (context : RuleContext.t) (range : Range) (name : string) (v : Var.t)
    (d : Def.t) (rest : list Def.t) (range' : Range) (id : Node)
    (init : option Node) (kind : string) :
  findVariable (Identifier range name) context = Some v ->
  Var.defs v = d :: rest ->
  Def.node d = Some (VariableDeclarator range' id init kind) ->
  Part000.isReferenceType (S (S fuel)) (Some (Identifier range name)) context
  = Return true.
Proof.
  intros Hv Hd Hn. rewrite part000_Identifier, Hv, Hd, Hn. reflexivity.
Qed.

Lemma part000_declared_identifier_is_reference_type_witness :
  Part000.isReferenceType 2 (Some letArray_fillArgument) letArray
  = Return true.
Proof.
  apply (part000_declared_identifier_is_reference_type 0 letArray (30, 31)
           "a" (definedBy "a" letArray_declarator)
           (Def.mk (Some letArray_declarator)) []
           (4, 10) (Identifier (4, 5) "a") (Some (ArrayExpression (8, 10)))
           "let");
    reflexivity.
Defined.

(** X17. A call reported by the listener of [rules/] whose receiver is a call
    or construction of [Array] is reported by the listener of
    [src/unnamed/part_000] as well; that report points at the call itself. *)
Theorem part000_reports_at_least_as_much (fuel : nat) (node : Node)
    (context : RuleContext.t) (problem : Problem) :
  CallExpression_listener fuel node context = Return (Some problem) ->
  Part000.isArrayDotFill node = true ->
  Part000.CallExpression_listener fuel node context
  = Return (Some
      {| Part000.problem_node := node;
         Part000.messageId := MESSAGE_ID_ERROR;
         Part000.data_type := Part000.getType (problem_node problem) |}).
Proof.
  intros H Hshape.
  destruct (report_content_first fuel node context problem H) as [Hf Hr].
  unfold Part000.CallExpression_listener. rewrite Hshape. simpl.
  rewrite (part000_flags_more fuel context _ Hr).
  rewrite Hf. reflexivity.
Qed.

Lemma part000_reports_at_least_as_much_witness :
  Part000.CallExpression_listener 1 newMap_call newMap
  = Return (Some
      {| Part000.problem_node := newMap_call;
         Part000.messageId := MESSAGE_ID_ERROR;
         Part000.data_type := "new Map()" |}).
Proof.
  apply (part000_reports_at_least_as_much 1 newMap_call newMap
           {| problem_node := newMap_fillArgument;
              messageId := MESSAGE_ID_ERROR;
              data_actual := "Array.fill()";
              data_type := " (new Map())" |});
    reflexivity.
Defined.

(** ** Stricter options *)

Section StricterOptions.

Variable sourceCode : SourceCode.t.
Variables lenient strict : list UserOptions.t.

(** Every option that [strict] leaves on is on in [lenient]. *)
Hypothesis function_on :
  canFillWithFunction (getOptions (RuleContext.mk strict sourceCode)) = true ->
  canFillWithFunction (getOptions (RuleContext.mk lenient sourceCode)) = true.
Hypothesis regexp_on :
  canFillWithRegexp (getOptions (RuleContext.mk strict sourceCode)) = true ->
  canFillWithRegexp (getOptions (RuleContext.mk lenient sourceCode)) = true.

Lemma stricter_options_keep_flags (fuel : nat) :
  (forall node,
     isReferenceType fuel node (RuleContext.mk lenient sourceCode)
     = Return true ->
     isReferenceType fuel node (RuleContext.mk strict sourceCode)
     = Return true)
  /\ (forall node,
        isIdentifierReferenceType fuel node
          (RuleContext.mk lenient sourceCode)
        = Return true ->
        isIdentifierReferenceType fuel node (RuleContext.mk strict sourceCode)
        = Return true).
Proof.
  induction fuel as [|fuel [IHr IHi]]; [split; intros; discriminate|].
  split.
  - intros [node|] H; [|discriminate H].
    pose proof function_on as Hf. pose proof regexp_on as Hr.
    destruct node; try (apply IHi; exact H); try discriminate H;
      try destruct regex;
      simpl in H; simpl;
      destruct (canFillWithFunction
                  (getOptions (RuleContext.mk strict sourceCode)));
      destruct (canFillWithRegexp
                  (getOptions (RuleContext.mk strict sourceCode)));
      try (rewrite (Hf eq_refl) in H); try (rewrite (Hr eq_refl) in H);
      simpl in H; simpl;
      try destruct (_ && noVariables _)%bool;
      simpl in H; simpl;
      try exact H; try reflexivity; try discriminate H;
      destruct (canFillWithFunction
                  (getOptions (RuleContext.mk lenient sourceCode)));
      destruct (canFillWithRegexp
                  (getOptions (RuleContext.mk lenient sourceCode)));
      simpl in H; try exact H; try reflexivity; try discriminate H.
  - intros node H.
    rewrite isIdentifierReferenceType_resolve.
    rewrite isIdentifierReferenceType_resolve in H.
    change (resolve node (RuleContext.mk strict sourceCode))
      with (resolve node (RuleContext.mk lenient sourceCode)).
    destruct (resolve node (RuleContext.mk lenient sourceCode));
      try exact H.
    apply IHr. exact H.
Qed.

End StricterOptions.

(** X18. Turning options off never clears a flag: a node that is a reference
    type under some options is a reference type under all options that leave
    on no more than those. *)
Theorem stricter_options_flag_more (fuel : nat) (sourceCode : SourceCode.t)
    (lenient strict : list UserOptions.t) (node : option Node) :
  (canFillWithFunction (getOptions (RuleContext.mk strict sourceCode)) = true
   -> canFillWithFunction (getOptions (RuleContext.mk lenient sourceCode))
      = true) ->
  (canFillWithRegexp (getOptions (RuleContext.mk strict sourceCode)) = true
   -> canFillWithRegexp (getOptions (RuleContext.mk lenient sourceCode))
      = true) ->
  isReferenceType fuel node (RuleContext.mk lenient sourceCode) = Return true ->
  isReferenceType fuel node (RuleContext.mk strict sourceCode) = Return true.
Proof.
  intros Hf Hr.
  apply (proj1 (stricter_options_keep_flags sourceCode lenient strict Hf Hr
                  fuel)).
Qed.

Lemma stricter_options_flag_more_witness :
  isReferenceType 3 (Some constRegex_fillArgument) (constRegex allOff)
  = Return true.
Proof.
  apply (stricter_options_flag_more 3
           (RuleContext.sourceCode (constRegex regexpOff)) regexpOff allOff
           (Some constRegex_fillArgument)).
  - discriminate.
  - discriminate.
  - reflexivity.
Defined.

Lemma part000_flags_at_least_as_much_witness :
  Part000.isReferenceType 3 (Some constObject_fillArgument)
    (constObject defaultOptions)
  = Return true.
Proof.
  apply (part000_flags_at_least_as_much 3 (constObject defaultOptions)
           (Some constObject_fillArgument)).
  reflexivity.
Defined.
